(** * ZenClock: the mode / timing state machine of [src/index.tsx]

    The module-level variables of the script become one [State] record, the
    DOM text nodes the script writes to ([timeDisplay], [modeIndicator],
    [btnStart]) become string fields of it, and every callback ([updateDisplay],
    [switchMode], the click handlers) becomes a function from states to states
    that receives the clock reading it performs as an argument.

    Numbers.  All times are integer milliseconds ([Date.now()]) and all
    arithmetic on them is exact in IEEE doubles below 2^53, so a JS number is
    a [Z] here; the quotients handed to [Math.floor], [Math.ceil] and [pad]
    are rationals ([Q]).  The JS operator [%] keeps the sign of the dividend:
    it is [Z.rem].  The model and the script agree on the safe integers
    ([safe]: magnitude at most 2^53 - 1): beyond them the script rounds to a
    double, prints with trailing zeros or an exponent, and can produce
    [Infinity] and [NaN], which [Z] does not have.  A property that depends on
    a computed number says so with [safe], [exactTotal] or [exactEvent].

    Strings.  A string is the sequence of its UTF-16 code units, each below
    256 here. *)

From Stdlib Require Import ZArith QArith Qround Bool List Ascii String Lia.
Import ListNotations.

#[local] Open Scope string_scope.
#[local] Open Scope Z_scope.

(** ** JavaScript built-ins used by the script *)

Module JS.

(** [a / b] for an integer [a] and a positive literal [b]. *)
Definition div (a : Z) (b : positive) : Q := Qmake a b.

Definition Math_floor (q : Q) : Z := Qfloor q.
Definition Math_ceil (q : Q) : Z := Qceiling q.
Definition Math_max (a b : Z) : Z := Z.max a b.

(** *** [Number.prototype.toString] on integers

    The decimal digits in full, with a minus sign for a negative number.
    That is what the script prints for a safe integer; a larger number is
    printed by it from its shortest digits (trailing zeros, an exponent from
    10^21 on), which this function does not follow. *)

Definition digitChar (d : Z) : ascii := ascii_of_nat (48 + Z.to_nat d).

(** Decimal digits of [n >= 0], most significant first, pushed in front of
    [acc]; [fuel] bounds the number of digits. *)
Fixpoint digits (fuel : nat) (n : Z) (acc : string) : string :=
  match fuel with
  | O => acc
  | S fuel' =>
      let acc' := String (digitChar (n mod 10)) acc in
      if n <? 10 then acc' else digits fuel' (n / 10) acc'
  end.

(** A number below [2 ^ k] has at most [k] decimal digits. *)
Definition enough (n : Z) : nat := S (Z.to_nat (Z.log2 n)).

Definition toString (n : Z) : string :=
  if n <? 0 then String "-" (digits (enough (- n)) (- n) "")
  else digits (enough n) n "".

(** *** [String.prototype.padStart] with a one-character filler *)

Fixpoint repeat (c : ascii) (k : nat) : string :=
  match k with
  | O => ""
  | S k' => String c (repeat c k')
  end.

Definition padStart (len : nat) (c : ascii) (s : string) : string :=
  repeat c (len - String.length s) ++ s.

(** *** [parseInt] with no radix argument

    Leading white space is skipped, one sign is accepted, a [0x] / [0X]
    prefix selects radix 16, and the longest prefix of digits is read;
    [None] stands for [NaN] (no digit at all).  The value is the integer the
    digits denote: the script's value when that integer is safe, its nearest
    double (or [Infinity]) otherwise. *)

(** The white space and line terminators of the language among the code
    units below 256: TAB, LF, VT, FF, CR, SP and NBSP (U+00A0). *)
Definition isSpace (c : ascii) : bool :=
  let n := nat_of_ascii c in
  ((n =? 32) || (n =? 9) || (n =? 10) || (n =? 11) || (n =? 12) || (n =? 13)
   || (n =? 160))%nat.

Fixpoint trimStart (s : string) : string :=
  match s with
  | String c r => if isSpace c then trimStart r else s
  | EmptyString => s
  end.

Definition digitValue (radix : Z) (c : ascii) : option Z :=
  let n := Z.of_nat (nat_of_ascii c) in
  let v := if (48 <=? n) && (n <=? 57) then Some (n - 48)
           else if (97 <=? n) && (n <=? 122) then Some (n - 87)
           else if (65 <=? n) && (n <=? 90) then Some (n - 55)
           else None in
  match v with
  | Some d => if d <? radix then Some d else None
  | None => None
  end.

Fixpoint parseDigits (radix : Z) (s : string) (acc : Z) : Z :=
  match s with
  | String c r =>
      match digitValue radix c with
      | Some d => parseDigits radix r (radix * acc + d)
      | None => acc
      end
  | EmptyString => acc
  end.

Definition parseRadix (radix : Z) (s : string) : option Z :=
  match s with
  | String c _ =>
      match digitValue radix c with
      | Some _ => Some (parseDigits radix s 0)
      | None => None
      end
  | EmptyString => None
  end.

Definition parseUnsigned (s : string) : option Z :=
  match s with
  | String c (String x r) =>
      if Ascii.eqb c "0" && (Ascii.eqb x "x" || Ascii.eqb x "X")
      then parseRadix 16 r
      else parseRadix 10 s
  | _ => parseRadix 10 s
  end.

Definition parseInt (s : string) : option Z :=
  match trimStart s with
  | String c r =>
      if Ascii.eqb c "-" then option_map Z.opp (parseUnsigned r)
      else if Ascii.eqb c "+" then parseUnsigned r
      else parseUnsigned (String c r)
  | EmptyString => None
  end.

(** [x || 0] on a number: [NaN] (and [0]) give [0]. *)
Definition orZero (x : option Z) : Z :=
  match x with
  | Some v => v
  | None => 0
  end.

(** *** [String.prototype.split] on a one-character separator *)

Fixpoint split (sep : ascii) (s : string) : list string :=
  match s with
  | EmptyString => [""]
  | String c r =>
      if Ascii.eqb c sep then "" :: split sep r
      else match split sep r with
           | x :: xs => String c x :: xs
           | [] => [String c ""]
           end
  end.

(** Strings made of decimal digits only (used to reason about [toString]
    and [parseInt]). *)
Definition isDec (c : ascii) : bool :=
  let n := nat_of_ascii c in ((48 <=? n) && (n <=? 57))%nat.

Fixpoint allDec (s : string) : bool :=
  match s with
  | String c r => isDec c && allDec r
  | EmptyString => true
  end.

End JS.

(** ** The script's state *)

Inductive AppMode := CLOCK | STOPWATCH | TIMER.

Definition AppMode_eqb (a b : AppMode) : bool :=
  match a, b with
  | CLOCK, CLOCK | STOPWATCH, STOPWATCH | TIMER, TIMER => true
  | _, _ => false
  end.

(** One reading of the system clock: [getTime] is [Date.now()], the other
    three fields are the local wall-clock components of [new Date()]. *)
Record Date := mkDate {
  getTime : Z;
  getHours : Z;
  getMinutes : Z;
  getSeconds : Z
}.

(** A reading with only the millisecond count filled in. *)
Definition atMs (t : Z) : Date := mkDate t 0 0 0.

(** The [value]s of the three input elements. *)
Record Inputs := mkInputs {
  inputH : string;
  inputM : string;
  inputS : string
}.

(** The module-level variables (lines 8-20), the [textContent] of the three
    elements the logic writes to, and [alerts], the number of times
    [handleTimerComplete] has run (each run starts one background flash). *)
Record State := mkState {
  currentMode : AppMode;
  swRunning : bool;
  swStartTime : Z;
  swElapsedTime : Z;
  timerRunning : bool;
  timerEndTime : Z;
  timerRemaining : Z;
  timerInitialSet : Z;
  timeDisplay : string;
  modeIndicator : string;
  btnStart : string;
  alerts : nat
}.

Definition with_currentMode (v : AppMode) (st : State) : State :=
  mkState v (swRunning st) (swStartTime st) (swElapsedTime st)
    (timerRunning st) (timerEndTime st) (timerRemaining st) (timerInitialSet st)
    (timeDisplay st) (modeIndicator st) (btnStart st) (alerts st).

Definition with_swRunning (v : bool) (st : State) : State :=
  mkState (currentMode st) v (swStartTime st) (swElapsedTime st)
    (timerRunning st) (timerEndTime st) (timerRemaining st) (timerInitialSet st)
    (timeDisplay st) (modeIndicator st) (btnStart st) (alerts st).

Definition with_swStartTime (v : Z) (st : State) : State :=
  mkState (currentMode st) (swRunning st) v (swElapsedTime st)
    (timerRunning st) (timerEndTime st) (timerRemaining st) (timerInitialSet st)
    (timeDisplay st) (modeIndicator st) (btnStart st) (alerts st).

Definition with_swElapsedTime (v : Z) (st : State) : State :=
  mkState (currentMode st) (swRunning st) (swStartTime st) v
    (timerRunning st) (timerEndTime st) (timerRemaining st) (timerInitialSet st)
    (timeDisplay st) (modeIndicator st) (btnStart st) (alerts st).

Definition with_timerRunning (v : bool) (st : State) : State :=
  mkState (currentMode st) (swRunning st) (swStartTime st) (swElapsedTime st)
    v (timerEndTime st) (timerRemaining st) (timerInitialSet st)
    (timeDisplay st) (modeIndicator st) (btnStart st) (alerts st).

Definition with_timerEndTime (v : Z) (st : State) : State :=
  mkState (currentMode st) (swRunning st) (swStartTime st) (swElapsedTime st)
    (timerRunning st) v (timerRemaining st) (timerInitialSet st)
    (timeDisplay st) (modeIndicator st) (btnStart st) (alerts st).

Definition with_timerRemaining (v : Z) (st : State) : State :=
  mkState (currentMode st) (swRunning st) (swStartTime st) (swElapsedTime st)
    (timerRunning st) (timerEndTime st) v (timerInitialSet st)
    (timeDisplay st) (modeIndicator st) (btnStart st) (alerts st).

Definition with_timerInitialSet (v : Z) (st : State) : State :=
  mkState (currentMode st) (swRunning st) (swStartTime st) (swElapsedTime st)
    (timerRunning st) (timerEndTime st) (timerRemaining st) v
    (timeDisplay st) (modeIndicator st) (btnStart st) (alerts st).

Definition with_timeDisplay (v : string) (st : State) : State :=
  mkState (currentMode st) (swRunning st) (swStartTime st) (swElapsedTime st)
    (timerRunning st) (timerEndTime st) (timerRemaining st) (timerInitialSet st)
    v (modeIndicator st) (btnStart st) (alerts st).

Definition with_modeIndicator (v : string) (st : State) : State :=
  mkState (currentMode st) (swRunning st) (swStartTime st) (swElapsedTime st)
    (timerRunning st) (timerEndTime st) (timerRemaining st) (timerInitialSet st)
    (timeDisplay st) v (btnStart st) (alerts st).

Definition with_btnStart (v : string) (st : State) : State :=
  mkState (currentMode st) (swRunning st) (swStartTime st) (swElapsedTime st)
    (timerRunning st) (timerEndTime st) (timerRemaining st) (timerInitialSet st)
    (timeDisplay st) (modeIndicator st) v (alerts st).

Definition with_alerts (v : nat) (st : State) : State :=
  mkState (currentMode st) (swRunning st) (swStartTime st) (swElapsedTime st)
    (timerRunning st) (timerEndTime st) (timerRemaining st) (timerInitialSet st)
    (timeDisplay st) (modeIndicator st) (btnStart st) v.

(** The timing state of the Stopwatch and of the Timer, as tuples. *)
Definition swState (st : State) : bool * Z * Z :=
  (swRunning st, swStartTime st, swElapsedTime st).

Definition timerState (st : State) : bool * Z * Z * Z :=
  (timerRunning st, timerEndTime st, timerRemaining st, timerInitialSet st).

(** ** The callbacks *)

(** Line 44. *)
Definition pad (n : Q) : string :=
  JS.padStart 2 "0" (JS.toString (JS.Math_floor n)).

(** Lines 60-63 and, word for word, 76-79: the text built from [totalSecs]. *)
Definition formatHMS (totalSecs : Z) : string :=
  let h := pad (JS.div totalSecs 3600) in
  let m := pad (JS.div (Z.rem totalSecs 3600) 60) in
  let s := pad (inject_Z (Z.rem totalSecs 60)) in
  h ++ ":" ++ m ++ ":" ++ s.

(** Lines 55-58: the local [elapsed] of the Stopwatch branch. *)
Definition elapsedAt (now : Date) (st : State) : Z :=
  if swRunning st then getTime now - swStartTime st else swElapsedTime st.

(** Lines 67-69: the local [remaining] of the Timer branch. *)
Definition remainingAt (now : Date) (st : State) : Z :=
  if timerRunning st then JS.Math_max 0 (timerEndTime st - getTime now)
  else timerRemaining st.

(** Lines 84-91.  The caption is reset; the flash (background colour set and
    restored 500 ms later) is counted in [alerts]. *)
Definition handleTimerComplete (st : State) : State :=
  with_alerts (S (alerts st)) (with_btnStart "Start" st).

(** Lines 46-82, with both elements present. *)
Definition updateDisplay (now : Date) (st : State) : State :=
  match currentMode st with
  | CLOCK =>
      with_modeIndicator "CLOCK"
        (with_timeDisplay
           (pad (inject_Z (getHours now)) ++ ":" ++ pad (inject_Z (getMinutes now))
              ++ ":" ++ pad (inject_Z (getSeconds now))) st)
  | STOPWATCH =>
      let elapsed := elapsedAt now st in
      let totalSecs := JS.Math_floor (JS.div elapsed 1000) in
      with_modeIndicator "STOPWATCH" (with_timeDisplay (formatHMS totalSecs) st)
  | TIMER =>
      let remaining := remainingAt now st in
      let st1 :=
        if timerRunning st then
          if (remaining =? 0) && timerRunning st
          then handleTimerComplete (with_timerRunning false st)
          else st
        else st in
      let totalSecs := JS.Math_ceil (JS.div remaining 1000) in
      with_modeIndicator "TIMER" (with_timeDisplay (formatHMS totalSecs) st1)
  end.

(** Lines 116-143.  The CSS class changes (active button, hidden controls)
    carry no timing state and are left out. *)
Definition switchMode (newMode : AppMode) (now : Date) (st : State) : State :=
  let st1 := with_currentMode newMode st in
  let st2 :=
    match newMode with
    | CLOCK => st1
    | STOPWATCH => with_btnStart (if swRunning st1 then "Pause" else "Start") st1
    | TIMER => with_btnStart (if timerRunning st1 then "Pause" else "Start") st1
    end in
  updateDisplay now st2.

(** Lines 180-211: the click handler of the start/pause button. *)
Definition btnStart_click (inp : Inputs) (now : Date) (st : State) : State :=
  match currentMode st with
  | STOPWATCH =>
      if negb (swRunning st) then
        with_btnStart "Pause"
          (with_swRunning true
             (with_swStartTime (getTime now - swElapsedTime st) st))
      else
        with_btnStart "Resume"
          (with_swRunning false
             (with_swElapsedTime (getTime now - swStartTime st) st))
  | TIMER =>
      if negb (timerRunning st) then
        let start (s0 : State) :=
          with_btnStart "Pause"
            (with_timerRunning true
               (with_timerEndTime (getTime now + timerRemaining s0) s0)) in
        if timerRemaining st <=? 0 then
          let h := JS.orZero (JS.parseInt (inputH inp)) in
          let m := JS.orZero (JS.parseInt (inputM inp)) in
          let s := JS.orZero (JS.parseInt (inputS inp)) in
          let st1 := with_timerRemaining ((h * 3600 + m * 60 + s) * 1000) st in
          if timerRemaining st1 <=? 0 then st1
          else start (with_timerInitialSet (timerRemaining st1) st1)
        else start st
      else
        with_btnStart "Resume"
          (with_timerRunning false
             (with_timerRemaining (timerEndTime st - getTime now) st))
  | CLOCK => st
  end.

(** Lines 213-225: the click handler of the reset button. *)
Definition btnReset_click (now : Date) (st : State) : State :=
  let st1 :=
    match currentMode st with
    | STOPWATCH =>
        with_btnStart "Start"
          (with_swStartTime 0 (with_swElapsedTime 0 (with_swRunning false st)))
    | TIMER =>
        with_btnStart "Start"
          (with_timerRemaining 0 (with_timerRunning false st))
    | CLOCK => st
    end in
  updateDisplay now st1.

(** ** Runs of the script *)

(** What the event loop delivers: the 100 ms interval (line 228) and the
    three kinds of click, each with the clock reading made while it runs. *)
Inductive Event :=
| Tick (now : Date)
| ModeClick (newMode : AppMode) (now : Date)
| StartClick (inp : Inputs) (now : Date)
| ResetClick (now : Date).

Definition step (st : State) (e : Event) : State :=
  match e with
  | Tick now => updateDisplay now st
  | ModeClick newMode now => switchMode newMode now st
  | StartClick inp now => btnStart_click inp now st
  | ResetClick now => btnReset_click now st
  end.

Definition run (st : State) (es : list Event) : State := fold_left step es st.

(** Lines 8-20 and 229: the variables' initialisers, then the first
    [updateDisplay()].  [caption] is the start button's text in the page. *)
Definition boot (caption : string) (now : Date) : State :=
  updateDisplay now
    (mkState CLOCK false 0 0 false 0 0 0 "" "" caption 0).

Inductive Reachable : State -> Prop :=
| reach_boot caption now : Reachable (boot caption now)
| reach_step st e : Reachable st -> Reachable (step st e).

(** The configured total of line 198. *)
Definition configuredTotal (inp : Inputs) : Z :=
  (JS.orZero (JS.parseInt (inputH inp)) * 3600
   + JS.orZero (JS.parseInt (inputM inp)) * 60
   + JS.orZero (JS.parseInt (inputS inp))) * 1000.

(** An event is punctual when, if it pauses a running Timer, it does so no
    later than the deadline, and, if it reads the input fields (a start with
    nothing banked), the total they configure is not negative. *)
Definition punctual (st : State) (e : Event) : Prop :=
  match e with
  | StartClick inp now =>
      currentMode st = TIMER ->
      if timerRunning st then getTime now <= timerEndTime st
      else timerRemaining st <= 0 -> 0 <= configuredTotal inp
  | _ => True
  end.

Inductive ReachablePunctually : State -> Prop :=
| preach_boot caption now : ReachablePunctually (boot caption now)
| preach_step st e :
    ReachablePunctually st -> punctual st e -> ReachablePunctually (step st e).

(** The caption the specification asks of a mode switch: Pause when the new
    mode runs, Resume for a stopped Stopwatch with banked time, else Start. *)
Definition specCaption (newMode : AppMode) (st : State) : string :=
  match newMode with
  | STOPWATCH =>
      if swRunning st then "Pause"
      else if swElapsedTime st =? 0 then "Start" else "Resume"
  | TIMER => if timerRunning st then "Pause" else "Start"
  | CLOCK => "Start"
  end.

(** Reading a displayed text back, as the round-trip property of the
    specification has it: the three fields between the colons, each through
    [parseInt]. *)
Definition parseHMS (text : string) : option (Z * Z * Z) :=
  match map JS.parseInt (JS.split ":" text) with
  | [Some h; Some m; Some s] => Some (h, m, s)
  | _ => None
  end.

(** The timing state of mode [m]; the Clock has none. *)
Definition timingState (m : AppMode) (st : State) : option (bool * list Z) :=
  match m with
  | CLOCK => None
  | STOPWATCH => Some (swRunning st, [swStartTime st; swElapsedTime st])
  | TIMER =>
      Some (timerRunning st,
            [timerEndTime st; timerRemaining st; timerInitialSet st])
  end.

(** The test of lines 68-70 as a whole: the Timer is shown, runs, and its
    deadline is not in the future. *)
Definition expired (now : Date) (st : State) : bool :=
  AppMode_eqb (currentMode st) TIMER && timerRunning st
  && (timerEndTime st <=? getTime now).

(** A burst of interval callbacks. *)
Definition ticks (readings : list Date) : list Event := map Tick readings.

(** A sequence of presses on the mode buttons. *)
Definition modeClicks (switches : list (AppMode * Date)) : list Event :=
  map (fun p => ModeClick (fst p) (snd p)) switches.

(** ** Sample inputs and runs *)

Definition zeroInputs : Inputs := mkInputs "0" "0" "0".
Definition oneSecond : Inputs := mkInputs "0" "0" "1".
Definition fiveSeconds : Inputs := mkInputs "" "0" "5".

(** The page just loaded, at 09:30:00. *)
Definition loaded : State := boot "Start" (mkDate 0 9 30 0).

(** A one-second countdown started 30 ms into the session and paused at
    1050 ms, 20 ms after its deadline and before the interval callback due at
    1100 ms. *)
Definition latePause : list Event :=
  [ModeClick TIMER (atMs 0); StartClick oneSecond (atMs 30)]
  ++ ticks (map atMs [100; 200; 300; 400; 500; 600; 700; 800; 900; 1000])
  ++ [StartClick oneSecond (atMs 1050)].

(** A five-second countdown started at 1000 ms and still running at 5900 ms. *)
Definition countingDown : list Event :=
  [ModeClick TIMER (atMs 0); StartClick fiveSeconds (atMs 1000);
   Tick (atMs 1100); Tick (atMs 5900)].

(** The Stopwatch run for five seconds, paused, and the Clock shown. *)
Definition pausedStopwatch : list Event :=
  [ModeClick STOPWATCH (atMs 0); StartClick zeroInputs (atMs 1000);
   Tick (atMs 3000); StartClick zeroInputs (atMs 6000);
   ModeClick CLOCK (atMs 7000)].

(** ** Readings of a state *)

(** The text [updateDisplay] writes to the mode indicator (lines 52, 64, 80). *)
Definition modeName (m : AppMode) : string :=
  match m with
  | CLOCK => "CLOCK"
  | STOPWATCH => "STOPWATCH"
  | TIMER => "TIMER"
  end.

(** The running flag of the mode on display; the Clock has none. *)
Definition activeRunning (st : State) : bool :=
  match currentMode st with
  | CLOCK => false
  | STOPWATCH => swRunning st
  | TIMER => timerRunning st
  end.

(** The caption agrees with the running flag of the mode shown: Pause while
    it runs, Start or Resume while it does not. *)
Definition captionOK (st : State) : Prop :=
  match currentMode st with
  | CLOCK => True
  | _ =>
      if activeRunning st then btnStart st = "Pause"
      else btnStart st = "Start" \/ btnStart st = "Resume"
  end.

(** The ranges of [getHours], [getMinutes] and [getSeconds]. *)
Definition wallClock (d : Date) : Prop :=
  0 <= getHours d <= 23 /\ 0 <= getMinutes d <= 59 /\ 0 <= getSeconds d <= 59.

(** ** The page around the timing state: class lists and the hide timeout *)

(** [classList] of an element: an ordered set of class names. *)
Module ClassList.

Definition contains (c : string) (cls : list string) : bool :=
  existsb (String.eqb c) cls.

Definition add (c : string) (cls : list string) : list string :=
  if contains c cls then cls else cls ++ [c].

Definition remove (c : string) (cls : list string) : list string :=
  filter (fun x => negb (String.eqb c x)) cls.

End ClassList.

(** The elements whose classes the script changes (lines 25-35, and
    [document.body]); all of them present in the page. *)
Inductive Element :=
| BtnModeClock | BtnModeStopwatch | BtnModeTimer
| BtnStart | BtnReset | TimerConfig | Controls | Body.

Definition Element_eqb (a b : Element) : bool :=
  match a, b with
  | BtnModeClock, BtnModeClock | BtnModeStopwatch, BtnModeStopwatch
  | BtnModeTimer, BtnModeTimer | BtnStart, BtnStart | BtnReset, BtnReset
  | TimerConfig, TimerConfig | Controls, Controls | Body, Body => true
  | _, _ => false
  end.

Definition Classes := Element -> list string.

(** [e.classList.f(...)]: the class list of [e] goes through [f]. *)
Definition onElement (e : Element) (f : list string -> list string)
    (cl : Classes) : Classes :=
  fun x => if Element_eqb x e then f (cl x) else cl x.

Definition modeButton (m : AppMode) : Element :=
  match m with
  | CLOCK => BtnModeClock
  | STOPWATCH => BtnModeStopwatch
  | TIMER => BtnModeTimer
  end.

(** Lines 119-140 of [switchMode]: the class changes. *)
Definition switchModeClasses (newMode : AppMode) (cl : Classes) : Classes :=
  let cl :=
    onElement BtnModeTimer (ClassList.remove "active")
      (onElement BtnModeStopwatch (ClassList.remove "active")
         (onElement BtnModeClock (ClassList.remove "active") cl)) in
  let cl := if AppMode_eqb newMode CLOCK
            then onElement BtnModeClock (ClassList.add "active") cl else cl in
  let cl := if AppMode_eqb newMode STOPWATCH
            then onElement BtnModeStopwatch (ClassList.add "active") cl else cl in
  let cl := if AppMode_eqb newMode TIMER
            then onElement BtnModeTimer (ClassList.add "active") cl else cl in
  if AppMode_eqb newMode CLOCK then
    onElement TimerConfig (ClassList.add "hidden")
      (onElement BtnReset (ClassList.add "hidden")
         (onElement BtnStart (ClassList.add "hidden") cl))
  else
    let cl :=
      onElement BtnReset (ClassList.remove "hidden")
        (onElement BtnStart (ClassList.remove "hidden") cl) in
    if AppMode_eqb newMode STOPWATCH
    then onElement TimerConfig (ClassList.add "hidden") cl
    else onElement TimerConfig (ClassList.remove "hidden") cl.

(** The page: the class lists, the variable [controlsTimeout] (line 9), the
    pending [hideControls] timeouts of the window, each with its handle and
    the time it is due, and the timing state. *)
Record Page := mkPage {
  classes : Classes;
  controlsTimeout : option N;
  timeouts : list (N * Z);
  app : State
}.

(** [clearTimeout(h)]. *)
Definition clearTimeout (h : N) (ts : list (N * Z)) : list (N * Z) :=
  filter (fun p => negb (N.eqb (fst p) h)) ts.

(** [if (controlsTimeout) clearTimeout(controlsTimeout)]: [null] and [0] are
    falsy. *)
Definition clearControlsTimeout (pg : Page) : list (N * Z) :=
  match controlsTimeout pg with
  | Some h0 => if N.eqb h0 0 then timeouts pg else clearTimeout h0 (timeouts pg)
  | None => timeouts pg
  end.

(** [controlsTimeout = window.setTimeout(hideControls, 4000)] run at time
    [now], where [h] is the handle the window returns. *)
Definition armHide (h : N) (now : Z) (pg : Page) : Page :=
  mkPage (classes pg) (Some h) (clearControlsTimeout pg ++ [(h, now + 4000)])
    (app pg).

(** Lines 94-101. *)
Definition showControls (h : N) (now : Z) (pg : Page) : Page :=
  let cl :=
    onElement Body (ClassList.remove "cursor-none")
      (onElement Controls (ClassList.add "visible") (classes pg)) in
  armHide h now (mkPage cl (controlsTimeout pg) (timeouts pg) (app pg)).

(** Lines 103-114; [inputFocused] is the test of line 105. *)
Definition hideControls (inputFocused : bool) (h : N) (now : Z) (pg : Page)
    : Page :=
  if inputFocused then armHide h now pg
  else
    let cl :=
      onElement Body (ClassList.add "cursor-none")
        (onElement Controls (ClassList.remove "visible") (classes pg)) in
    mkPage cl (controlsTimeout pg) (timeouts pg) (app pg).

(** [switchMode] with its class changes. *)
Definition pageSwitchMode (newMode : AppMode) (now : Date) (pg : Page) : Page :=
  mkPage (switchModeClasses newMode (classes pg)) (controlsTimeout pg)
    (timeouts pg) (switchMode newMode now (app pg)).

(** What the window delivers to the page: a mouse, touch or key event
    (lines 166-169), a due [hideControls] timeout, or an event of the timing
    core.  [h] is the handle the next [setTimeout] call returns. *)
Inductive PageEvent :=
| Interaction (h : N) (now : Z)
| HideDue (due : N) (inputFocused : bool) (h : N) (now : Z)
| Core (e : Event).

Definition pageStep (pg : Page) (e : PageEvent) : Page :=
  match e with
  | Interaction h now => showControls h now pg
  | HideDue due inputFocused h now =>
      hideControls inputFocused h now
        (mkPage (classes pg) (controlsTimeout pg)
           (clearTimeout due (timeouts pg)) (app pg))
  | Core (ModeClick newMode now) => pageSwitchMode newMode now pg
  | Core e' =>
      mkPage (classes pg) (controlsTimeout pg) (timeouts pg) (step (app pg) e')
  end.

(** A handle the window may return: positive and not that of a pending
    timeout. *)
Definition freshHandle (h : N) (pg : Page) : Prop :=
  h <> 0%N /\ ~ In h (map fst (timeouts pg)).

(** An event the window can deliver in state [pg]. *)
Definition deliverable (pg : Page) (e : PageEvent) : Prop :=
  match e with
  | Interaction h _ => freshHandle h pg
  | HideDue due _ h _ => In due (map fst (timeouts pg)) /\ freshHandle h pg
  | Core _ => True
  end.

(** Lines 229-230: the page as loaded, with the class lists [cl] and the
    caption of its markup. *)
Definition pageBoot (cl : Classes) (caption : string) (inputFocused : bool)
    (h : N) (now : Date) : Page :=
  hideControls inputFocused h (getTime now)
    (mkPage cl None [] (boot caption now)).

Inductive PageReachable : Page -> Prop :=
| page_boot cl caption inputFocused h now :
    h <> 0%N -> PageReachable (pageBoot cl caption inputFocused h now)
| page_step pg e :
    PageReachable pg -> deliverable pg e -> PageReachable (pageStep pg e).

(** The classes agree with the mode on display: the active mode button, and
    the hidden controls. *)
Definition classesMatch (pg : Page) : Prop :=
  (forall m, ClassList.contains "active" (classes pg (modeButton m))
             = AppMode_eqb m (currentMode (app pg)))
  /\ ClassList.contains "hidden" (classes pg BtnStart)
     = AppMode_eqb (currentMode (app pg)) CLOCK
  /\ ClassList.contains "hidden" (classes pg BtnReset)
     = AppMode_eqb (currentMode (app pg)) CLOCK
  /\ ClassList.contains "hidden" (classes pg TimerConfig)
     = negb (AppMode_eqb (currentMode (app pg)) TIMER).

(** At most one [hideControls] timeout is pending, it is the one recorded
    in [controlsTimeout], and one is pending whenever the controls are
    visible. *)
Definition hideInv (pg : Page) : Prop :=
  (timeouts pg = []
   \/ exists h due, timeouts pg = [(h, due)] /\ controlsTimeout pg = Some h
                    /\ h <> 0%N)
  /\ (ClassList.contains "visible" (classes pg Controls) = true ->
      timeouts pg <> []).

(** The Stopwatch started one second into the session. *)
Definition stopwatchRunning : list Event :=
  [ModeClick STOPWATCH (atMs 0); StartClick zeroInputs (atMs 1000)].


(** The page just loaded with no class set and no input focused, and the
    same page after a mouse move at 100 ms. *)
Definition samplePage : Page :=
  pageBoot (fun _ => []) "Start" false 1%N (mkDate 0 9 30 0).

Definition shownPage : Page := pageStep samplePage (Interaction 2%N 100).

(** ** Safe integers and exact arithmetic *)

(** [Number.MAX_SAFE_INTEGER]. *)
Definition maxSafe : Z := 2 ^ 53 - 1.

(** The integers on which the script's arithmetic and printing are exact. *)
Definition safe (x : Z) : Prop := - maxSafe <= x <= maxSafe.

(** Line 198 computes the configured total exactly: the three fields and
    every product and sum on the way are safe integers. *)
Definition exactTotal (inp : Inputs) : Prop :=
  let h := JS.orZero (JS.parseInt (inputH inp)) in
  let m := JS.orZero (JS.parseInt (inputM inp)) in
  let s := JS.orZero (JS.parseInt (inputS inp)) in
  safe h /\ safe m /\ safe s
  /\ safe (h * 3600) /\ safe (m * 60) /\ safe (h * 3600 + m * 60)
  /\ safe (h * 3600 + m * 60 + s)
  /\ safe ((h * 3600 + m * 60 + s) * 1000).

(** The event stores exact numbers only: the clock reading of a press on
    start/pause and the number the handler computes from it (lines 183, 187,
    198, 202, 206) are safe integers.  The other events store no computed
    number. *)
Definition exactEvent (st : State) (e : Event) : Prop :=
  match e with
  | StartClick inp now =>
      safe (getTime now)
      /\ match currentMode st with
         | CLOCK => True
         | STOPWATCH =>
             if swRunning st then safe (getTime now - swStartTime st)
             else safe (getTime now - swElapsedTime st)
         | TIMER =>
             if timerRunning st then safe (timerEndTime st - getTime now)
             else if timerRemaining st <=? 0 then
               exactTotal inp
               /\ (0 < configuredTotal inp ->
                   safe (getTime now + configuredTotal inp))
             else safe (getTime now + timerRemaining st)
         end
  | _ => True
  end.

Inductive ReachableExactly : State -> Prop :=
| ereach_boot caption now : ReachableExactly (boot caption now)
| ereach_step st e :
    ReachableExactly st -> exactEvent st e -> ReachableExactly (step st e).

(** Every number kept in the state is a safe integer, the configured total
    is not negative and is positive once something positive is banked, and a
    running Timer has a positive bank. *)
Definition exactState (st : State) : Prop :=
  safe (swStartTime st) /\ safe (swElapsedTime st)
  /\ safe (timerEndTime st) /\ safe (timerRemaining st)
  /\ safe (timerInitialSet st)
  /\ 0 <= timerInitialSet st
  /\ (0 < timerRemaining st -> 0 < timerInitialSet st)
  /\ (timerRunning st = true -> 0 < timerRemaining st).

(** * Properties *)

Example toString_samples :
  JS.toString 0 = "0" /\ JS.toString 7 = "7" /\ JS.toString 1234567 = "1234567"
  /\ JS.toString (-45) = "-45" /\ JS.toString 100 = "100".
Proof. repeat split; reflexivity. Qed.

Example parseInt_samples :
  JS.parseInt "05" = Some 5 /\ JS.parseInt "" = None /\ JS.parseInt "abc" = None
  /\ JS.parseInt " -12px" = Some (-12) /\ JS.parseInt "0x1f" = Some 31
  /\ JS.parseInt "+7" = Some 7.
Proof. repeat split; reflexivity. Qed.

Example split_samples :
  JS.split ":" "01:02:03" = ["01"; "02"; "03"] /\ JS.split ":" "" = [""].
Proof. repeat split; reflexivity. Qed.

Example formatHMS_samples :
  formatHMS 0 = "00:00:00" /\ formatHMS 3725 = "01:02:05"
  /\ formatHMS 360000 = "100:00:00" /\ formatHMS (-1) = "-1:-1:-1"
  /\ formatHMS (-3600) = "-1:00:00".
Proof. repeat split; reflexivity. Qed.

(** ** Printing and reading decimal numbers *)

Module JSFacts.
Import JS.

Lemma isDec_cases (c : ascii) :
  isDec c = true ->
  isSpace c = false /\ Ascii.eqb c "-" = false /\ Ascii.eqb c "+" = false
  /\ Ascii.eqb c "x" = false /\ Ascii.eqb c "X" = false
  /\ Ascii.eqb c ":" = false
  /\ exists d, 0 <= d < 10 /\ digitValue 10 c = Some d.
Proof.
  intros H.
  assert (forall k, isDec k = false -> Ascii.eqb c k = false) as Hneq.
  { intros k Hk. destruct (Ascii.eqb_spec c k) as [-> |]; congruence. }
  repeat (split; [try (apply Hneq; reflexivity) |]).
  - unfold isDec in H. unfold isSpace.
    apply andb_true_iff in H as [H1 H2].
    apply Nat.leb_le in H1. apply Nat.leb_le in H2.
    repeat (apply orb_false_iff; split); apply Nat.eqb_neq; lia.
  - unfold isDec in H. apply andb_true_iff in H as [H1 H2].
    apply Nat.leb_le in H1. apply Nat.leb_le in H2.
    exists (Z.of_nat (nat_of_ascii c) - 48). split; [lia |].
    unfold digitValue.
    replace (48 <=? Z.of_nat (nat_of_ascii c)) with true
      by (symmetry; apply Z.leb_le; lia).
    replace (Z.of_nat (nat_of_ascii c) <=? 57) with true
      by (symmetry; apply Z.leb_le; lia).
    cbn [andb].
    replace (Z.of_nat (nat_of_ascii c) - 48 <? 10) with true
      by (symmetry; apply Z.ltb_lt; lia).
    reflexivity.
Qed.

Lemma digitChar_dec (d : Z) :
  0 <= d < 10 -> isDec (digitChar d) = true /\ digitValue 10 (digitChar d) = Some d.
Proof.
  intros H.
  assert (d = 0 \/ d = 1 \/ d = 2 \/ d = 3 \/ d = 4 \/ d = 5 \/ d = 6
          \/ d = 7 \/ d = 8 \/ d = 9) as C by lia.
  repeat (destruct C as [-> | C]; [split; reflexivity |]).
  subst d; split; reflexivity.
Qed.

Lemma allDec_app (s t : string) :
  allDec (s ++ t) = allDec s && allDec t.
Proof.
  induction s as [| c s IH]; simpl; [reflexivity |].
  now rewrite IH, andb_assoc.
Qed.

Lemma allDec_repeat_zero (k : nat) : allDec (repeat "0" k) = true.
Proof. induction k; simpl; auto. Qed.

Lemma allDec_digits (fuel : nat) :
  forall n acc, allDec acc = true -> allDec (digits fuel n acc) = true.
Proof.
  induction fuel as [| fuel IH]; intros n acc Hacc; cbn [digits]; [exact Hacc |].
  assert (allDec (String (digitChar (n mod 10)) acc) = true) as Hd.
  { cbn [allDec]. rewrite Hacc, andb_true_r.
    apply digitChar_dec. apply Z.mod_pos_bound. lia. }
  destruct (n <? 10); [exact Hd | now apply IH].
Qed.

(** Enough fuel: the digits of [n] read back as [n]. *)
Lemma parseDigits_digits (fuel : nat) :
  forall n rest,
    0 <= n < 2 ^ Z.of_nat fuel ->
    parseDigits 10 (digits fuel n rest) 0 = parseDigits 10 rest n.
Proof.
  induction fuel as [| fuel IH]; intros n rest Hn.
  - simpl. change (2 ^ Z.of_nat 0) with 1 in Hn.
    replace n with 0 by lia. reflexivity.
  - cbn [digits]. destruct (Z.ltb_spec n 10) as [Hlt | Hge].
    + cbn [parseDigits].
      rewrite Z.mod_small by lia.
      destruct (digitChar_dec n) as [_ ->]; [lia |].
      f_equal.
    + rewrite IH.
      * cbn [parseDigits].
        destruct (digitChar_dec (n mod 10)) as [_ ->].
        { apply Z.mod_pos_bound. lia. }
        f_equal. pose proof (Z.div_mod n 10). lia.
      * rewrite Nat2Z.inj_succ, Z.pow_succ_r in Hn by lia.
        split; [apply Z.div_pos; lia |].
        apply Z.div_lt_upper_bound; lia.
Qed.

Lemma enough_bound (n : Z) : 0 <= n -> 0 <= n < 2 ^ Z.of_nat (enough n).
Proof.
  intros Hn. split; [exact Hn |]. unfold enough.
  rewrite Nat2Z.inj_succ, Z2Nat.id by apply Z.log2_nonneg.
  destruct (Z.eq_dec n 0) as [-> | Hz]; [reflexivity |].
  apply Z.log2_spec. lia.
Qed.

Lemma parseDigits_repeat_zero (k : nat) (s : string) :
  parseDigits 10 (repeat "0" k ++ s) 0 = parseDigits 10 s 0.
Proof. induction k as [| k IH]; simpl; [reflexivity | exact IH]. Qed.

Lemma length_padStart (len : nat) (c : ascii) (s : string) :
  (len <= String.length (padStart len c s))%nat.
Proof.
  unfold padStart.
  assert (forall a b, String.length (a ++ b) = (String.length a + String.length b)%nat) as ->.
  { induction a as [| x a IH]; intros b; simpl; [reflexivity | now rewrite IH]. }
  assert (forall k, String.length (repeat c k) = k) as ->.
  { induction k; simpl; congruence. }
  lia.
Qed.

(** A non-empty string of decimal digits goes through [parseInt] as its
    decimal value: no white space, no sign, no hexadecimal prefix. *)
Lemma parseInt_allDec (s : string) :
  allDec s = true -> s <> "" -> parseInt s = Some (parseDigits 10 s 0).
Proof.
  intros Hs Hne. destruct s as [| c r]; [congruence |].
  simpl in Hs. apply andb_true_iff in Hs as [Hc Hr].
  destruct (isDec_cases c Hc) as (Hsp & Hm & Hp & _ & _ & _ & d & Hd & Hv).
  unfold parseInt. cbn [trimStart]. rewrite Hsp, Hm, Hp.
  assert (parseRadix 10 (String c r) = Some (parseDigits 10 (String c r) 0)) as Hrad.
  { unfold parseRadix. now rewrite Hv. }
  unfold parseUnsigned. destruct r as [| x r']; [exact Hrad |].
  simpl in Hr. apply andb_true_iff in Hr as [Hx _].
  destruct (isDec_cases x Hx) as (_ & _ & _ & Hx1 & Hx2 & _).
  rewrite Hx1, Hx2, andb_false_r. exact Hrad.
Qed.

Lemma split_allDec (s : string) :
  allDec s = true -> split ":" s = [s].
Proof.
  induction s as [| c r IH]; simpl; [reflexivity |].
  intros H. apply andb_true_iff in H as [Hc Hr].
  destruct (isDec_cases c Hc) as (_ & _ & _ & _ & _ & -> & _).
  now rewrite IH.
Qed.

Lemma split_allDec_colon (s t : string) :
  allDec s = true -> split ":" (s ++ String ":" t) = s :: split ":" t.
Proof.
  induction s as [| c r IH]; simpl; [reflexivity |].
  intros H. apply andb_true_iff in H as [Hc Hr].
  destruct (isDec_cases c Hc) as (_ & _ & _ & _ & _ & -> & _).
  now rewrite IH.
Qed.

End JSFacts.

(** ** The displayed text *)

Section Display.
Import JS JSFacts.

Lemma pad_nonneg (q : Q) :
  0 <= Math_floor q ->
  allDec (pad q) = true /\ pad q <> "" /\ parseInt (pad q) = Some (Math_floor q).
Proof.
  intros Hq. unfold pad, toString.
  destruct (Z.ltb_spec (Math_floor q) 0) as [Hneg | _]; [lia |].
  set (n := Math_floor q) in *.
  assert (allDec (padStart 2 "0" (digits (enough n) n "")) = true) as Hall.
  { unfold padStart. rewrite allDec_app, allDec_repeat_zero.
    now rewrite allDec_digits. }
  assert (padStart 2 "0" (digits (enough n) n "") <> "") as Hne.
  { intros E. pose proof (length_padStart 2 "0" (digits (enough n) n "")) as L.
    rewrite E in L. simpl in L. lia. }
  repeat split; [exact Hall | exact Hne |].
  rewrite parseInt_allDec by assumption.
  unfold padStart. rewrite parseDigits_repeat_zero.
  now rewrite parseDigits_digits by now apply enough_bound.
Qed.

Lemma parseHMS_pads (a b c : Q) :
  0 <= Math_floor a -> 0 <= Math_floor b -> 0 <= Math_floor c ->
  parseHMS (pad a ++ ":" ++ pad b ++ ":" ++ pad c)
  = Some (Math_floor a, Math_floor b, Math_floor c).
Proof.
  intros Ha Hb Hc.
  destruct (pad_nonneg a Ha) as (Da & _ & Pa).
  destruct (pad_nonneg b Hb) as (Db & _ & Pb).
  destruct (pad_nonneg c Hc) as (Dc & _ & Pc).
  unfold parseHMS.
  change (pad a ++ ":" ++ pad b ++ ":" ++ pad c)
    with (pad a ++ String ":" (pad b ++ String ":" (pad c))).
  rewrite split_allDec_colon, split_allDec_colon, split_allDec by assumption.
  cbn [map]. now rewrite Pa, Pb, Pc.
Qed.

(** The three numbers [formatHMS] prints, for a non-negative count. *)
Lemma parseHMS_formatHMS (totalSecs : Z) :
  0 <= totalSecs ->
  parseHMS (formatHMS totalSecs)
  = Some (totalSecs / 3600, totalSecs mod 3600 / 60, totalSecs mod 60).
Proof.
  intros H. unfold formatHMS. cbv zeta.
  rewrite !Z.rem_mod_nonneg by lia.
  assert (Math_floor (div totalSecs 3600) = totalSecs / 3600) as E1 by reflexivity.
  assert (Math_floor (div (totalSecs mod 3600) 60) = totalSecs mod 3600 / 60) as E2
    by reflexivity.
  assert (Math_floor (inject_Z (totalSecs mod 60)) = totalSecs mod 60) as E3
    by apply Qfloor_Z.
  rewrite parseHMS_pads; [now rewrite E1, E2, E3 | | |].
  - rewrite E1. apply Z.div_pos; lia.
  - rewrite E2. apply Z.div_pos; [apply Z.mod_pos_bound |]; lia.
  - rewrite E3. apply Z.mod_pos_bound; lia.
Qed.

Lemma hms_sum (t : Z) :
  0 <= t ->
  t / 3600 * 3600 + t mod 3600 / 60 * 60 + t mod 60 = t
  /\ 0 <= t / 3600 /\ 0 <= t mod 3600 / 60 <= 59 /\ 0 <= t mod 60 <= 59.
Proof.
  intros H.
  pose proof (Z.div_mod t 3600). pose proof (Z.mod_pos_bound t 3600).
  pose proof (Z.div_mod (t mod 3600) 60). pose proof (Z.mod_pos_bound (t mod 3600) 60).
  pose proof (Z.mod_pos_bound t 60).
  assert (t mod 60 = (t mod 3600) mod 60) as E.
  { change 3600 with (60 * 60). rewrite Z.rem_mul_r by lia.
    rewrite (Z.mul_comm 60 (t / 60 mod 60)), Z.mod_add by lia.
    now rewrite Z.mod_mod by lia. }
  assert (0 <= t / 3600) by (apply Z.div_pos; lia).
  assert (0 <= t mod 3600 / 60) by (apply Z.div_pos; lia).
  assert (t mod 3600 / 60 <= 59).
  { apply Z.lt_succ_r. apply Z.div_lt_upper_bound; lia. }
  lia.
Qed.

End Display.

(** ** Frame properties of the callbacks *)

#[local] Opaque formatHMS pad.

Ltac open_state st :=
  destruct st as [mode swr sws swe tr te trem tini disp ind cap al];
  cbn [currentMode swRunning swStartTime swElapsedTime timerRunning timerEndTime
       timerRemaining timerInitialSet timeDisplay modeIndicator btnStart alerts] in *.

Ltac reduce_state :=
  cbn [currentMode swRunning swStartTime swElapsedTime timerRunning timerEndTime
       timerRemaining timerInitialSet timeDisplay modeIndicator btnStart alerts
       with_currentMode with_swRunning with_swStartTime with_swElapsedTime
       with_timerRunning with_timerEndTime with_timerRemaining
       with_timerInitialSet with_timeDisplay with_modeIndicator with_btnStart
       with_alerts handleTimerComplete swState timerState timingState
       negb andb orb AppMode_eqb] in *.

Section Frames.

Lemma max0_zero (d : Z) : (JS.Math_max 0 d =? 0) = (d <=? 0).
Proof.
  unfold JS.Math_max.
  destruct (Z.leb_spec d 0); [apply Z.eqb_eq | apply Z.eqb_neq]; lia.
Qed.

(** The Timer branch of [updateDisplay], with the expiry test in one piece. *)
Lemma updateDisplay_TIMER (now : Date) (st : State) :
  currentMode st = TIMER ->
  updateDisplay now st
  = with_modeIndicator "TIMER"
      (with_timeDisplay
         (formatHMS (JS.Math_ceil (JS.div (remainingAt now st) 1000)))
         (if expired now st
          then handleTimerComplete (with_timerRunning false st)
          else st)).
Proof.
  intros Hm. unfold updateDisplay, expired, remainingAt. rewrite Hm.
  destruct (timerRunning st); cbn [AppMode_eqb andb]; [| reflexivity].
  rewrite max0_zero, andb_true_r.
  replace (timerEndTime st - getTime now <=? 0)
    with (timerEndTime st <=? getTime now); [reflexivity |].
  destruct (Z.leb_spec (timerEndTime st) (getTime now));
    symmetry; [apply Z.leb_le | apply Z.leb_gt]; lia.
Qed.

Lemma expired_not_timer (now : Date) (st : State) :
  currentMode st <> TIMER -> expired now st = false.
Proof. unfold expired. destruct (currentMode st); [reflexivity .. | congruence]. Qed.

(** What every display refresh leaves alone; the running flag of the Timer
    drops exactly on expiry, and then [handleTimerComplete] runs once. *)
Lemma updateDisplay_frame (now : Date) (st : State) :
  let st' := updateDisplay now st in
  currentMode st' = currentMode st
  /\ swState st' = swState st
  /\ timerEndTime st' = timerEndTime st
  /\ timerRemaining st' = timerRemaining st
  /\ timerInitialSet st' = timerInitialSet st
  /\ timerRunning st' = (if expired now st then false else timerRunning st)
  /\ alerts st' = (if expired now st then S (alerts st) else alerts st)
  /\ btnStart st' = (if expired now st then "Start" else btnStart st).
Proof.
  cbv zeta. destruct (currentMode st) eqn:Hm.
  - rewrite expired_not_timer by congruence.
    unfold updateDisplay. rewrite Hm. open_state st. reduce_state. tauto.
  - rewrite expired_not_timer by congruence.
    unfold updateDisplay. rewrite Hm. open_state st. reduce_state. tauto.
  - rewrite updateDisplay_TIMER by assumption.
    destruct (expired now st); open_state st; reduce_state; tauto.
Qed.

Lemma updateDisplay_expired_false (now later : Date) (st : State) :
  expired now st = true -> expired later (updateDisplay now st) = false.
Proof.
  intros H. unfold expired at 1.
  destruct (updateDisplay_frame now st) as (_ & _ & _ & _ & _ & -> & _).
  rewrite H. now rewrite andb_false_r.
Qed.

End Frames.

(** ** Reset, mode switches and the Stopwatch toggle *)

Section Controls.

Lemma run_app (st : State) (es fs : list Event) :
  run st (es ++ fs) = run (run st es) fs.
Proof. apply fold_left_app. Qed.

(** Interval callbacks never touch the Stopwatch nor the active mode. *)
Lemma run_ticks_frame (readings : list Date) :
  forall st,
    currentMode (run st (ticks readings)) = currentMode st
    /\ swState (run st (ticks readings)) = swState st.
Proof.
  induction readings as [| now readings IH]; intros st; [now split |].
  cbn [ticks map run fold_left step].
  destruct (IH (updateDisplay now st)) as [Hm Hs].
  unfold run, ticks in Hm, Hs. rewrite Hm, Hs.
  destruct (updateDisplay_frame now st) as (Em & Es & _). now rewrite Em, Es.
Qed.

Lemma switchMode_swState (newMode : AppMode) (now : Date) (st : State) :
  swState (switchMode newMode now st) = swState st.
Proof.
  unfold switchMode. cbv zeta.
  match goal with |- swState (updateDisplay now ?s) = _ =>
    destruct (updateDisplay_frame now s) as (_ & -> & _) end.
  destruct newMode; open_state st; reduce_state; reflexivity.
Qed.

(** C7 -- Reset is scoped to the active mode: with the Stopwatch active it
    stops the Stopwatch and zeroes its banked time and leaves every Timer
    field alone; with the Timer active it stops the Timer and zeroes its
    banked remaining time and leaves every Stopwatch field alone; with the
    Clock active it changes neither.  It is defined on every state, running
    or not, and it never raises the completion signal. *)
Theorem reset_is_mode_scoped (now : Date) (st : State) :
  let st' := btnReset_click now st in
  match currentMode st with
  | STOPWATCH =>
      swRunning st' = false /\ swElapsedTime st' = 0
      /\ timerState st' = timerState st
  | TIMER =>
      timerRunning st' = false /\ timerRemaining st' = 0
      /\ swState st' = swState st
  | CLOCK => swState st' = swState st /\ timerState st' = timerState st
  end
  /\ currentMode st' = currentMode st
  /\ alerts st' = alerts st.
Proof.
  cbv zeta. unfold btnReset_click.
  match goal with |- context [updateDisplay now ?s] =>
    pose proof (updateDisplay_frame now s) as F;
    assert (expired now s = false) as E
  end.
  { unfold expired. destruct (currentMode st) eqn:Hm;
      open_state st; subst; reduce_state; reflexivity. }
  cbv zeta in F. rewrite E in F.
  destruct F as (Fm & Fs & Fe & Fr & Fi & Frun & Fa & _).
  unfold timerState, swState in *.
  rewrite Fm, Fe, Fr, Fi, Frun, Fa.
  injection Fs as -> -> ->.
  destruct (currentMode st) eqn:Hm; open_state st; subst; reduce_state;
    repeat split; reflexivity.
Qed.

(** C6 -- A mode switch leaves the Stopwatch's running flag, start instant
    and banked elapsed time unchanged, and the Timer's deadline, banked
    remaining time and configured total too.  The Timer's running flag is
    unchanged except in one case: a switch to the Timer made when the Timer
    runs and its deadline is not in the future stops it and raises the
    completion signal once, because the switch ends with a display refresh.
    So the timing state of every mode other than the new one is unchanged,
    the Stopwatch survives every sequence of switches, and no switch rewrites
    a banked time. *)
Theorem switchMode_timing_effect (newMode : AppMode) (now : Date) (st : State) :
  let st' := switchMode newMode now st in
  let stops := expired now (with_currentMode newMode st) in
  (stops = true
   <-> newMode = TIMER /\ timerRunning st = true
       /\ timerEndTime st <= getTime now)
  /\ swState st' = swState st
  /\ (timerEndTime st', timerRemaining st', timerInitialSet st')
     = (timerEndTime st, timerRemaining st, timerInitialSet st)
  /\ timerRunning st' = (if stops then false else timerRunning st)
  /\ alerts st' = (if stops then S (alerts st) else alerts st)
  /\ (forall m, m <> newMode -> timingState m st' = timingState m st)
  /\ (forall switches, swState (run st (modeClicks switches)) = swState st).
Proof.
  cbv zeta.
  assert (forall sw s, swState (run s (modeClicks sw)) = swState s) as Hmany.
  { induction sw as [| [m t] sw IH]; intros s; [reflexivity |].
    cbn [modeClicks map run fold_left step fst snd].
    unfold run, modeClicks in IH. rewrite IH. apply switchMode_swState. }
  pose proof (switchMode_swState newMode now st) as Hsw.
  assert (expired now (with_currentMode newMode st) = true
          <-> newMode = TIMER /\ timerRunning st = true
              /\ timerEndTime st <= getTime now) as Hstops.
  { unfold expired. open_state st. reduce_state.
    destruct newMode; cbn [AppMode_eqb andb];
      try (split; [discriminate | intros (E & _); discriminate E]).
    rewrite andb_true_iff, Z.leb_le. intuition. }
  assert (timerEndTime (switchMode newMode now st) = timerEndTime st
          /\ timerRemaining (switchMode newMode now st) = timerRemaining st
          /\ timerInitialSet (switchMode newMode now st) = timerInitialSet st
          /\ timerRunning (switchMode newMode now st)
             = (if expired now (with_currentMode newMode st) then false
                else timerRunning st)
          /\ alerts (switchMode newMode now st)
             = (if expired now (with_currentMode newMode st) then S (alerts st)
                else alerts st))
    as (Fe & Fr & Fi & Frun & Fa).
  { unfold switchMode. cbv zeta.
    match goal with |- context [updateDisplay now ?s] =>
      pose proof (updateDisplay_frame now s) as F;
      assert (expired now s = expired now (with_currentMode newMode st)) as E
        by (unfold expired; destruct newMode; open_state st; reflexivity)
    end.
    cbv zeta in F. destruct F as (_ & _ & -> & -> & -> & -> & -> & _).
    rewrite E.
    repeat split; destruct newMode; open_state st; reflexivity. }
  split; [exact Hstops |].
  split; [exact Hsw |].
  split; [now rewrite Fe, Fr, Fi |].
  split; [exact Frun |].
  split; [exact Fa |].
  split; [| intros sw; apply Hmany].
  intros m Hm. destruct m; cbn [timingState]; [reflexivity | |].
  - unfold swState in Hsw. injection Hsw as -> -> ->. reflexivity.
  - rewrite Fe, Fr, Fi, Frun.
    destruct (expired now (with_currentMode newMode st)) eqn:X; [| reflexivity].
    destruct (proj1 Hstops eq_refl) as (E & _). congruence.
Qed.

(** C9 -- The Stopwatch toggle: pressed while stopped it sets the start
    instant to now minus the banked time and starts; pressed while running
    it banks now minus the start instant and stops.  Start, pause, start,
    pause (interval callbacks in between) banks the initial amount plus the
    two running spans, and the banked time never decreases across the
    cycles when the clock does not go backwards. *)
Theorem stopwatch_toggle_banks_elapsed
    (st : State) (i1 i2 i3 i4 : Inputs) (n1 n2 n3 n4 : Date)
    (b1 b2 b3 : list Date) :
  currentMode st = STOPWATCH ->
  swRunning st = false ->
  let s1 := btnStart_click i1 n1 st in
  let s2 := btnStart_click i2 n2 (run s1 (ticks b1)) in
  let s3 := btnStart_click i3 n3 (run s2 (ticks b2)) in
  let s4 := btnStart_click i4 n4 (run s3 (ticks b3)) in
  (swRunning s1 = true /\ swStartTime s1 = getTime n1 - swElapsedTime st)
  /\ (swRunning s2 = false /\ swElapsedTime s2 = getTime n2 - swStartTime s1)
  /\ (swRunning s3 = true /\ swStartTime s3 = getTime n3 - swElapsedTime s2)
  /\ (swRunning s4 = false /\ swElapsedTime s4 = getTime n4 - swStartTime s3)
  /\ swElapsedTime s4
     = swElapsedTime st + (getTime n2 - getTime n1) + (getTime n4 - getTime n3)
  /\ (getTime n1 <= getTime n2 -> getTime n3 <= getTime n4 ->
      swElapsedTime st <= swElapsedTime s2 <= swElapsedTime s4).
Proof.
  intros Hm Hr s1 s2 s3 s4.
  assert (forall i n s, currentMode s = STOPWATCH ->
            let s' := btnStart_click i n s in
            currentMode s' = STOPWATCH
            /\ swRunning s' = negb (swRunning s)
            /\ (swRunning s = false ->
                swStartTime s' = getTime n - swElapsedTime s
                /\ swElapsedTime s' = swElapsedTime s)
            /\ (swRunning s = true ->
                swElapsedTime s' = getTime n - swStartTime s
                /\ swStartTime s' = swStartTime s)) as T.
  { intros i n s Hs. cbv zeta. unfold btnStart_click. rewrite Hs.
    destruct (swRunning s) eqn:R; open_state s; subst; reduce_state;
      repeat split; congruence. }
  assert (forall b s, currentMode (run s (ticks b)) = currentMode s
                      /\ swRunning (run s (ticks b)) = swRunning s
                      /\ swStartTime (run s (ticks b)) = swStartTime s
                      /\ swElapsedTime (run s (ticks b)) = swElapsedTime s) as K.
  { intros b s. destruct (run_ticks_frame b s) as [Km Ks].
    unfold swState in Ks. injection Ks as -> -> ->. auto. }
  destruct (T i1 n1 st Hm) as (M1 & R1 & A1 & _). fold s1 in M1, R1, A1.
  rewrite Hr in R1. destruct (A1 Hr) as [S1 E1].
  destruct (K b1 s1) as (Km1 & Kr1 & Ks1 & Ke1).
  rewrite M1 in Km1. rewrite R1 in Kr1.
  destruct (T i2 n2 (run s1 (ticks b1)) Km1) as (M2 & R2 & _ & A2).
  fold s2 in M2, R2, A2.
  rewrite Kr1 in R2. destruct (A2 Kr1) as [E2 S2].
  destruct (K b2 s2) as (Km2 & Kr2 & Ks2 & Ke2).
  rewrite M2 in Km2. rewrite R2 in Kr2.
  destruct (T i3 n3 (run s2 (ticks b2)) Km2) as (M3 & R3 & A3 & _).
  fold s3 in M3, R3, A3.
  rewrite Kr2 in R3. destruct (A3 Kr2) as [S3 E3].
  destruct (K b3 s3) as (Km3 & Kr3 & Ks3 & Ke3).
  rewrite M3 in Km3. rewrite R3 in Kr3.
  destruct (T i4 n4 (run s3 (ticks b3)) Km3) as (M4 & R4 & _ & A4).
  fold s4 in M4, R4, A4.
  rewrite Kr3 in R4. destruct (A4 Kr3) as [E4 S4].
  cbn [negb] in *.
  repeat split; try assumption; try lia; try congruence.
Qed.

End Controls.

(** ** Timer expiry *)

Section Expiry.
Import JS.

Lemma ceil_div_1000 (r : Z) : Math_ceil (div r 1000) = - ((- r) / 1000).
Proof. reflexivity. Qed.

Lemma ceil_bounds (r : Z) :
  1000 * (Math_ceil (div r 1000) - 1) < r <= 1000 * Math_ceil (div r 1000).
Proof.
  rewrite ceil_div_1000.
  pose proof (Z.div_mod (- r) 1000). pose proof (Z.mod_pos_bound (- r) 1000).
  lia.
Qed.

Lemma floor_bounds (e : Z) :
  1000 * Math_floor (div e 1000) <= e < 1000 * Math_floor (div e 1000) + 1000.
Proof.
  change (Math_floor (div e 1000)) with (e / 1000).
  pose proof (Z.div_mod e 1000). pose proof (Z.mod_pos_bound e 1000). lia.
Qed.

Lemma formatHMS_0 : formatHMS 0 = "00:00:00".
Proof. vm_compute. reflexivity. Qed.

(** Only a zero count of seconds is displayed as all zeros. *)
Lemma formatHMS_zero_only (t : Z) :
  0 <= t -> formatHMS t = "00:00:00" -> t = 0.
Proof.
  intros Ht E. pose proof (parseHMS_formatHMS t Ht) as P.
  rewrite E in P.
  assert (parseHMS "00:00:00" = Some (0, 0, 0)) as Z0 by (vm_compute; reflexivity).
  rewrite Z0 in P. injection P as P1 P2 P3.
  destruct (hms_sum t Ht) as (S & _). lia.
Qed.

Lemma expired_true (now : Date) (st : State) :
  currentMode st = TIMER -> timerRunning st = true ->
  timerEndTime st <= getTime now -> expired now st = true.
Proof.
  intros Hm Hr Hd. unfold expired. rewrite Hm, Hr. cbn [AppMode_eqb andb].
  now apply Z.leb_le.
Qed.

(** While the Timer is shown and stopped, interval callbacks change the two
    displayed texts only. *)
Lemma stopped_timer_ticks (readings : list Date) :
  forall st,
    currentMode st = TIMER -> timerRunning st = false ->
    let st' := run st (ticks readings) in
    currentMode st' = TIMER /\ timerState st' = timerState st
    /\ swState st' = swState st /\ alerts st' = alerts st
    /\ btnStart st' = btnStart st.
Proof.
  induction readings as [| now readings IH]; intros st Hm Hr; [now repeat split |].
  cbv zeta. cbn [ticks map run fold_left step].
  destruct (updateDisplay_frame now st) as (Fm & Fs & Fe & Frem & Fi & Frun & Fa & Fb).
  assert (expired now st = false) as E.
  { unfold expired. now rewrite Hr, andb_false_r. }
  rewrite E in Frun, Fa, Fb.
  destruct (IH (updateDisplay now st)) as (Im & It & Is & Ia & Ib);
    [congruence | congruence |].
  unfold run, ticks in *. rewrite Im, It, Is, Ia, Ib.
  unfold timerState. rewrite Fe, Frem, Fi, Frun. auto.
Qed.

Lemma stopped_timer_display (now : Date) (st : State) :
  currentMode st = TIMER -> timerRunning st = false ->
  remainingAt now st = timerRemaining st
  /\ timeDisplay (updateDisplay now st)
     = formatHMS (Math_ceil (div (timerRemaining st) 1000)).
Proof.
  intros Hm Hr.
  assert (remainingAt now st = timerRemaining st) as R.
  { unfold remainingAt. now rewrite Hr. }
  split; [exact R |].
  rewrite updateDisplay_TIMER, R by assumption.
  destruct (expired now st); open_state st; reflexivity.
Qed.

(** The expiry tick as one state update. *)
Lemma expiry_tick (now : Date) (st : State) :
  currentMode st = TIMER -> timerRunning st = true ->
  timerEndTime st <= getTime now ->
  remainingAt now st = 0
  /\ updateDisplay now st
     = with_modeIndicator "TIMER"
         (with_timeDisplay "00:00:00"
            (with_alerts (S (alerts st))
               (with_btnStart "Start" (with_timerRunning false st)))).
Proof.
  intros Hm Hr Hd.
  assert (remainingAt now st = 0) as R.
  { unfold remainingAt, Math_max. rewrite Hr. lia. }
  split; [exact R |].
  rewrite updateDisplay_TIMER, R, expired_true by assumption.
  change (Math_ceil (div 0 1000)) with 0. now rewrite formatHMS_0.
Qed.

(** C2 -- The expiry transition inside the display computation clears the
    running flag and runs the completion effect (caption, alert) and shows
    zero; the banked [timerRemaining] keeps the value of the last start or
    pause.  Every later display read while the Timer stays stopped shows
    that banked value, and the next press of start/pause, when the banked
    value is positive, starts a run of that length whatever the input
    fields hold. *)
Theorem expiry_leaves_banked_remaining (st : State) (now : Date) :
  currentMode st = TIMER ->
  timerRunning st = true ->
  timerEndTime st <= getTime now ->
  let st' := updateDisplay now st in
  st' = with_modeIndicator "TIMER"
          (with_timeDisplay "00:00:00"
             (with_alerts (S (alerts st))
                (with_btnStart "Start" (with_timerRunning false st))))
  /\ timerRemaining st' = timerRemaining st
  /\ (forall readings later,
        let st2 := run st' (ticks readings) in
        remainingAt later st2 = timerRemaining st
        /\ timeDisplay (updateDisplay later st2)
           = formatHMS (Math_ceil (div (timerRemaining st) 1000)))
  /\ (0 < timerRemaining st ->
      forall readings inp later,
        let st3 := btnStart_click inp later (run st' (ticks readings)) in
        timerRunning st3 = true
        /\ timerEndTime st3 = getTime later + timerRemaining st
        /\ timerRemaining st3 = timerRemaining st
        /\ timerInitialSet st3 = timerInitialSet st).
Proof.
  intros Hm Hr Hd st'.
  destruct (expiry_tick now st Hm Hr Hd) as [_ E].
  assert (currentMode st' = TIMER /\ timerRunning st' = false
          /\ timerRemaining st' = timerRemaining st
          /\ timerInitialSet st' = timerInitialSet st) as (Hm' & Hr' & Hb' & Hi').
  { subst st'. rewrite E. open_state st. reduce_state. auto. }
  assert (forall readings,
            currentMode (run st' (ticks readings)) = TIMER
            /\ timerRunning (run st' (ticks readings)) = false
            /\ timerRemaining (run st' (ticks readings)) = timerRemaining st
            /\ timerInitialSet (run st' (ticks readings)) = timerInitialSet st)
    as K.
  { intros readings.
    destruct (stopped_timer_ticks readings st' Hm' Hr') as (Km & Kt & _).
    unfold timerState in Kt. injection Kt as -> _ -> ->. auto. }
  repeat split.
  - exact E.
  - exact Hb'.
  - destruct (K readings) as (Km & Kr & Kb & _).
    destruct (stopped_timer_display later _ Km Kr) as [-> _]. exact Kb.
  - destruct (K readings) as (Km & Kr & Kb & _).
    destruct (stopped_timer_display later _ Km Kr) as [_ ->]. now rewrite Kb.
  - destruct (K readings) as (Km & Kr & Kb & Ki).
    unfold btnStart_click. rewrite Km, Kr. cbn [negb].
    destruct (Z.leb_spec (timerRemaining (run st' (ticks readings))) 0); [lia |].
    reflexivity.
  - destruct (K readings) as (Km & Kr & Kb & Ki).
    unfold btnStart_click. rewrite Km, Kr. cbn [negb].
    destruct (Z.leb_spec (timerRemaining (run st' (ticks readings))) 0); [lia |].
    reduce_state. now rewrite Kb.
  - destruct (K readings) as (Km & Kr & Kb & Ki).
    unfold btnStart_click. rewrite Km, Kr. cbn [negb].
    destruct (Z.leb_spec (timerRemaining (run st' (ticks readings))) 0); [lia |].
    reduce_state. exact Kb.
  - destruct (K readings) as (Km & Kr & Kb & Ki).
    unfold btnStart_click. rewrite Km, Kr. cbn [negb].
    destruct (Z.leb_spec (timerRemaining (run st' (ticks readings))) 0); [lia |].
    reduce_state. exact Ki.
Qed.

End Expiry.

(** ** Runs from the loaded page *)

Section Runs.
Import JS.

Lemma Reachable_run (es : list Event) :
  forall st, Reachable st -> Reachable (run st es).
Proof.
  induction es as [| e es IH]; intros st H; [exact H |].
  cbn [run fold_left]. apply IH. now constructor.
Qed.

Lemma switchMode_frame (newMode : AppMode) (now : Date) (st : State) :
  let st' := switchMode newMode now st in
  currentMode st' = newMode
  /\ timerRemaining st' = timerRemaining st
  /\ (timerRunning st' = true -> timerRunning st = true)
  /\ btnStart st'
     = match newMode with
       | CLOCK => btnStart st
       | STOPWATCH => if swRunning st' then "Pause" else "Start"
       | TIMER => if timerRunning st' then "Pause" else "Start"
       end.
Proof.
  cbv zeta. pose proof (switchMode_swState newMode now st) as Hsw.
  unfold swState in Hsw. injection Hsw as Hsw _ _.
  rewrite Hsw. clear Hsw.
  unfold switchMode. cbv zeta.
  match goal with |- context [updateDisplay now ?s] =>
    pose proof (updateDisplay_frame now s) as F;
    assert (newMode <> TIMER -> expired now s = false) as E
  end.
  { intros Hn. apply expired_not_timer.
    destruct newMode; open_state st; reduce_state; congruence. }
  cbv zeta in F. destruct F as (-> & _ & _ & -> & _ & -> & _ & ->).
  destruct newMode.
  - rewrite E by congruence. open_state st. reduce_state. auto.
  - rewrite E by congruence. open_state st. reduce_state. auto.
  - match goal with |- context [expired now ?s] => destruct (expired now s) eqn:X end;
      open_state st; reduce_state.
    + unfold expired in X. reduce_state.
      apply andb_true_iff in X as [X _]. subst tr. repeat split; congruence.
    + repeat split; auto.
Qed.

(** A running Timer always has a positive banked remaining time: the one
    it was started or resumed with. *)
Lemma running_timer_has_bank (st : State) :
  Reachable st -> timerRunning st = true -> 0 < timerRemaining st.
Proof.
  induction 1 as [caption now | st e H IH].
  - unfold boot. intros R.
    match type of R with timerRunning (updateDisplay now ?s) = _ =>
      destruct (updateDisplay_frame now s) as (_ & _ & _ & _ & _ & Fr & _) end.
    rewrite Fr in R. now rewrite expired_not_timer in R by discriminate.
  - destruct e as [now | newMode now | inp now | now]; cbn [step]; intros R.
    + destruct (updateDisplay_frame now st) as (_ & _ & _ & -> & _ & Fr & _).
      rewrite Fr in R. destruct (expired now st); [discriminate | auto].
    + destruct (switchMode_frame newMode now st) as (_ & -> & Fr & _). auto.
    + revert R. unfold btnStart_click.
      destruct (currentMode st); [auto | |].
      * destruct (swRunning st); open_state st; reduce_state; auto.
      * destruct (timerRunning st) eqn:Tr; cbn [negb].
        { open_state st; reduce_state. discriminate. }
        destruct (Z.leb_spec (timerRemaining st) 0) as [Hle | Hgt].
        { cbv zeta.
          match goal with |- context [with_timerRemaining ?v st] =>
            set (total := v) end.
          replace (timerRemaining (with_timerRemaining total st)) with total
            by (open_state st; reflexivity).
          destruct (Z.leb_spec total 0) as [Hz | Hp];
            open_state st; reduce_state; [congruence | auto]. }
        { open_state st; reduce_state. auto. }
    + revert R. unfold btnReset_click. cbv zeta.
      match goal with |- context [updateDisplay now ?s] =>
        destruct (updateDisplay_frame now s) as (_ & _ & _ & -> & _ & -> & _);
        destruct (expired now s); [discriminate |]
      end.
      destruct (currentMode st); open_state st; reduce_state; auto; discriminate.
Qed.

End Runs.

(** ** The Timer: completion, the button caption, the banked remaining time *)

Section Timer.
Import JS.

(** C1 -- On the interval callback that finds the shown Timer running with
    its deadline passed, the computed remaining time is 0, the text is all
    zeros, the running flag drops and the completion signal is raised once;
    later callbacks leave the flag down and do not raise the signal again.
    They do not keep reporting 0, though: the banked [timerRemaining] was
    not cleared, so from the next callback on the remaining time read is
    that positive banked value and the text is not all zeros. *)
Theorem expiry_fires_once_then_shows_bank
    (st : State) (now later : Date) (readings : list Date) :
  currentMode st = TIMER ->
  timerRunning st = true ->
  timerEndTime st <= getTime now ->
  0 < timerRemaining st ->
  let st1 := updateDisplay now st in
  let st2 := run st1 (ticks readings) in
  (remainingAt now st = 0 /\ timeDisplay st1 = "00:00:00"
   /\ timerRunning st1 = false /\ alerts st1 = S (alerts st))
  /\ (timerRunning st2 = false /\ alerts st2 = S (alerts st)
      /\ alerts (updateDisplay later st2) = S (alerts st))
  /\ (remainingAt later st2 = timerRemaining st
      /\ remainingAt later st2 <> 0
      /\ timeDisplay (updateDisplay later st2) <> "00:00:00").
Proof.
  intros Hm Hr Hd Hb st1 st2.
  destruct (expiry_tick now st Hm Hr Hd) as [R0 E].
  assert (currentMode st1 = TIMER /\ timerRunning st1 = false
          /\ timerRemaining st1 = timerRemaining st
          /\ alerts st1 = S (alerts st) /\ timeDisplay st1 = "00:00:00")
    as (Hm1 & Hr1 & Hb1 & Ha1 & Hd1).
  { subst st1. rewrite E. open_state st. reduce_state. auto. }
  destruct (stopped_timer_ticks readings st1 Hm1 Hr1) as (Km & Kt & _ & Ka & _).
  fold st2 in Km, Kt, Ka.
  unfold timerState in Kt. injection Kt as Kr _ Kb _.
  rewrite Hr1 in Kr. rewrite Hb1 in Kb. rewrite Ha1 in Ka.
  destruct (stopped_timer_display later st2 Km Kr) as [Rl Dl].
  destruct (updateDisplay_frame later st2) as (_ & _ & _ & _ & _ & _ & Fa & _).
  assert (expired later st2 = false) as X.
  { unfold expired. now rewrite Kr, andb_false_r. }
  rewrite X in Fa.
  repeat split; try assumption; try congruence; try lia.
  rewrite Dl, Kb. intros Z0.
  pose proof (ceil_bounds (timerRemaining st)) as B.
  apply formatHMS_zero_only in Z0; lia.
Qed.

(** C3 -- After a mode switch the caption of the start/pause button is
    Pause when the new mode (Stopwatch or Timer) is running and Start when
    it is not, whatever time is banked; a switch to the Clock leaves the
    caption as it was. *)
Theorem switchMode_caption (newMode : AppMode) (now : Date) (st : State) :
  let st' := switchMode newMode now st in
  btnStart st'
  = match newMode with
    | CLOCK => btnStart st
    | STOPWATCH => if swRunning st' then "Pause" else "Start"
    | TIMER => if timerRunning st' then "Pause" else "Start"
    end.
Proof. apply switchMode_frame. Qed.

(** C4 -- In every state reached from the loaded page by presses and
    interval callbacks such that every pause of a running Timer comes no
    later than its deadline and every total read from the input fields is
    non-negative, the banked remaining time of the Timer is at least 0. *)
Theorem punctual_bank_nonneg (st : State) :
  ReachablePunctually st -> 0 <= timerRemaining st.
Proof.
  induction 1 as [caption now | st e H IH P].
  - unfold boot.
    match goal with |- context [updateDisplay now ?s] =>
      destruct (updateDisplay_frame now s) as (_ & _ & _ & -> & _) end.
    reflexivity.
  - destruct e as [now | newMode now | inp now | now]; cbn [step punctual] in *.
    + now destruct (updateDisplay_frame now st) as (_ & _ & _ & -> & _).
    + now destruct (switchMode_frame newMode now st) as (_ & -> & _).
    + unfold btnStart_click. destruct (currentMode st) eqn:Hm; [exact IH | |].
      * destruct (swRunning st); open_state st; exact IH.
      * specialize (P eq_refl).
        destruct (timerRunning st) eqn:Tr; cbn [negb].
        { open_state st; reduce_state. lia. }
        destruct (Z.leb_spec (timerRemaining st) 0) as [Hle | Hgt].
        { cbv zeta.
          match goal with |- context [with_timerRemaining ?v st] =>
            set (total := v) end.
          assert (0 <= total) as Ht by (apply P; exact Hle).
          replace (timerRemaining (with_timerRemaining total st)) with total
            by (open_state st; reflexivity).
          destruct (Z.leb_spec total 0); open_state st; reduce_state; exact Ht. }
        { open_state st; reduce_state. exact IH. }
    + unfold btnReset_click. cbv zeta.
      match goal with |- context [updateDisplay now ?s] =>
        destruct (updateDisplay_frame now s) as (_ & _ & _ & -> & _) end.
      destruct (currentMode st); open_state st; reduce_state; lia.
Qed.

(** C5 -- A start attempt on the shown Timer, not running and with banked
    remaining time at most 0, whose configured total is at most 0 is
    aborted: the Timer does not start and no field changes except the
    banked remaining time, which now holds the configured total.  In
    particular all-zero inputs leave the Timer stopped with remaining 0. *)
Theorem nonpositive_total_aborts_start
    (inp : Inputs) (now : Date) (st : State) :
  currentMode st = TIMER ->
  timerRunning st = false ->
  timerRemaining st <= 0 ->
  configuredTotal inp <= 0 ->
  btnStart_click inp now st = with_timerRemaining (configuredTotal inp) st
  /\ timerRunning (btnStart_click inp now st) = false
  /\ (timerRemaining st = configuredTotal inp -> btnStart_click inp now st = st)
  /\ timerRunning (btnStart_click zeroInputs now st) = false
  /\ timerRemaining (btnStart_click zeroInputs now st) = 0.
Proof.
  intros Hm Hr Hb Ht.
  assert (forall i, configuredTotal i <= 0 ->
            btnStart_click i now st = with_timerRemaining (configuredTotal i) st)
    as A.
  { intros i Hi. unfold btnStart_click. rewrite Hm, Hr. cbn [negb].
    destruct (Z.leb_spec (timerRemaining st) 0); [| lia]. cbv zeta.
    fold (configuredTotal i).
    replace (timerRemaining (with_timerRemaining (configuredTotal i) st))
      with (configuredTotal i) by (open_state st; reflexivity).
    destruct (Z.leb_spec (configuredTotal i) 0); [reflexivity | lia]. }
  assert (configuredTotal zeroInputs = 0) as Z0 by (vm_compute; reflexivity).
  rewrite (A inp Ht), (A zeroInputs) by (rewrite Z0; lia).
  rewrite Z0. repeat split; try (open_state st; reduce_state; congruence).
  intros <-. open_state st. reflexivity.
Qed.

End Timer.

(** ** Seconds shown: floor for the Stopwatch, ceiling for the Timer *)

Section Rounding.
Import JS.

Lemma updateDisplay_STOPWATCH (now : Date) (st : State) :
  currentMode st = STOPWATCH ->
  timeDisplay (updateDisplay now st)
  = formatHMS (Math_floor (div (elapsedAt now st) 1000)).
Proof.
  intros Hm. unfold updateDisplay. rewrite Hm. open_state st. reflexivity.
Qed.

Lemma timer_text (now : Date) (st : State) :
  currentMode st = TIMER ->
  timeDisplay (updateDisplay now st)
  = formatHMS (Math_ceil (div (remainingAt now st) 1000)).
Proof.
  intros Hm. rewrite updateDisplay_TIMER by assumption.
  destruct (expired now st); open_state st; reflexivity.
Qed.

(** C8 -- The Stopwatch text is built from the floor of elapsed / 1000,
    the Timer text from the ceiling of remaining / 1000; so whenever the
    remaining time is positive the Timer shows at least one second and not
    all zeros, and a running countdown with 400 ms left shows one second. *)
Theorem floor_for_stopwatch_ceiling_for_timer (now : Date) (st : State) :
  (currentMode st = STOPWATCH ->
   exists secs,
     timeDisplay (updateDisplay now st) = formatHMS secs
     /\ 1000 * secs <= elapsedAt now st < 1000 * secs + 1000)
  /\ (currentMode st = TIMER ->
      exists secs,
        timeDisplay (updateDisplay now st) = formatHMS secs
        /\ 1000 * (secs - 1) < remainingAt now st <= 1000 * secs
        /\ (0 < remainingAt now st ->
            1 <= secs /\ timeDisplay (updateDisplay now st) <> "00:00:00"))
  /\ (currentMode st = TIMER -> timerRunning st = true ->
      timerEndTime st - getTime now = 400 ->
      remainingAt now st = 400
      /\ timeDisplay (updateDisplay now st) = "00:00:01").
Proof.
  split; [| split].
  - intros Hm. exists (Math_floor (div (elapsedAt now st) 1000)).
    split; [now apply updateDisplay_STOPWATCH | apply floor_bounds].
  - intros Hm. exists (Math_ceil (div (remainingAt now st) 1000)).
    pose proof (ceil_bounds (remainingAt now st)) as B.
    repeat split; try apply B; try lia.
    + now apply timer_text.
    + rewrite timer_text by assumption. intros Z0.
      apply formatHMS_zero_only in Z0; lia.
  - intros Hm Hr Hleft.
    assert (remainingAt now st = 400) as R.
    { unfold remainingAt, Math_max. rewrite Hr, Hleft. reflexivity. }
    split; [exact R |].
    rewrite timer_text, R by assumption. vm_compute. reflexivity.
Qed.

(** C10 -- For a Stopwatch showing a non-negative elapsed time d, the
    displayed text splits at the colons into three fields that parse to
    h, m and s with h * 3600 + m * 60 + s = floor (d / 1000), where h is the
    whole number of hours (not reduced modulo 24) and m and s lie in
    [0, 59]. *)
Theorem stopwatch_text_roundtrip (now : Date) (st : State) :
  currentMode st = STOPWATCH ->
  0 <= elapsedAt now st ->
  exists h m s,
    parseHMS (timeDisplay (updateDisplay now st)) = Some (h, m, s)
    /\ h * 3600 + m * 60 + s = elapsedAt now st / 1000
    /\ h = elapsedAt now st / 1000 / 3600
    /\ 0 <= m <= 59 /\ 0 <= s <= 59.
Proof.
  intros Hm Hd. rewrite updateDisplay_STOPWATCH by assumption.
  change (Math_floor (div (elapsedAt now st) 1000)) with (elapsedAt now st / 1000).
  set (t := elapsedAt now st / 1000).
  assert (0 <= t) as Ht by (apply Z.div_pos; lia).
  exists (t / 3600), (t mod 3600 / 60), (t mod 60).
  split; [now apply parseHMS_formatHMS |].
  destruct (hms_sum t Ht) as (S & _ & M & R). auto.
Qed.

End Rounding.

(** ** Instances on sample runs *)

Section Samples.

Lemma Reachable_loaded (es : list Event) : Reachable (run loaded es).
Proof. apply Reachable_run. apply reach_boot. Qed.

(** The expiry run used below: the five-second countdown of
    [countingDown], whose deadline is at 6000 ms. *)
Lemma expiry_fires_once_then_shows_bank_sample :
  let st := run loaded countingDown in
  let st1 := updateDisplay (atMs 6000) st in
  let st2 := run st1 (ticks [atMs 6100; atMs 6200]) in
  (remainingAt (atMs 6000) st = 0 /\ timeDisplay st1 = "00:00:00"
   /\ timerRunning st1 = false /\ alerts st1 = S (alerts st))
  /\ (timerRunning st2 = false /\ alerts st2 = S (alerts st)
      /\ alerts (updateDisplay (atMs 6300) st2) = S (alerts st))
  /\ (remainingAt (atMs 6300) st2 = timerRemaining st
      /\ remainingAt (atMs 6300) st2 <> 0
      /\ timeDisplay (updateDisplay (atMs 6300) st2) <> "00:00:00").
Proof.
  apply (expiry_fires_once_then_shows_bank
           (run loaded countingDown) (atMs 6000) (atMs 6300)
           [atMs 6100; atMs 6200]);
    vm_compute; (reflexivity || discriminate).
Defined.

(** What is on screen 100 ms after that expiry. *)
Example stale_text_after_expiry :
  timeDisplay (run loaded (countingDown ++ ticks [atMs 6000])) = "00:00:00"
  /\ timeDisplay (run loaded (countingDown ++ ticks [atMs 6000; atMs 6100]))
     = "00:00:05"
  /\ alerts (run loaded (countingDown ++ ticks [atMs 6000; atMs 6100])) = 1%nat.
Proof. repeat split; vm_compute; reflexivity. Qed.

Lemma expiry_leaves_banked_remaining_sample :
  let st := run loaded countingDown in
  let st' := updateDisplay (atMs 6000) st in
  st' = with_modeIndicator "TIMER"
          (with_timeDisplay "00:00:00"
             (with_alerts (S (alerts st))
                (with_btnStart "Start" (with_timerRunning false st))))
  /\ timerRemaining st' = timerRemaining st
  /\ (forall readings later,
        let st2 := run st' (ticks readings) in
        remainingAt later st2 = timerRemaining st
        /\ timeDisplay (updateDisplay later st2)
           = formatHMS (JS.Math_ceil (JS.div (timerRemaining st) 1000)))
  /\ (0 < timerRemaining st ->
      forall readings inp later,
        let st3 := btnStart_click inp later (run st' (ticks readings)) in
        timerRunning st3 = true
        /\ timerEndTime st3 = getTime later + timerRemaining st
        /\ timerRemaining st3 = timerRemaining st
        /\ timerInitialSet st3 = timerInitialSet st).
Proof.
  apply (expiry_leaves_banked_remaining (run loaded countingDown) (atMs 6000));
    vm_compute; (reflexivity || discriminate).
Defined.

(** The press after an expiry restarts the banked five seconds although
    the fields now ask for one second. *)
Example restart_ignores_inputs :
  let st := run loaded (countingDown ++ ticks [atMs 6000; atMs 6100]
                        ++ [StartClick oneSecond (atMs 7000)]) in
  timerRunning st = true /\ timerEndTime st = 12000.
Proof. split; vm_compute; reflexivity. Qed.

(** A switch to the Timer refreshes the display, and that refresh is
    where a Timer that ran out in the background is stopped. *)
Example switch_to_expired_timer :
  let st := run loaded (countingDown ++ [ModeClick CLOCK (atMs 5950)]) in
  timerRunning st = true
  /\ timerRunning (switchMode STOPWATCH (atMs 9000) st) = true
  /\ timerRunning (switchMode TIMER (atMs 9000) st) = false
  /\ alerts (switchMode TIMER (atMs 9000) st) = 1%nat.
Proof. repeat split; vm_compute; reflexivity. Qed.

(** C6, as stated, fails: with a five-second countdown left running behind
    the Clock, the switch to the Timer three seconds after the deadline
    clears the Timer's running flag. *)
Lemma switchMode_stops_expired_timer :
  ~ (forall newMode now st,
       Reachable st ->
       timerState (switchMode newMode now st) = timerState st).
Proof.
  intros H.
  specialize (H TIMER (atMs 9000)
                (run loaded (countingDown ++ [ModeClick CLOCK (atMs 5950)]))
                (Reachable_loaded _)).
  vm_compute in H. discriminate H.
Qed.

Lemma stopwatch_toggle_banks_elapsed_sample :
  let st := run loaded [ModeClick STOPWATCH (atMs 0)] in
  let s1 := btnStart_click zeroInputs (atMs 1000) st in
  let s2 := btnStart_click zeroInputs (atMs 4000) (run s1 (ticks [atMs 2000])) in
  let s3 := btnStart_click zeroInputs (atMs 9000) (run s2 (ticks [])) in
  let s4 := btnStart_click zeroInputs (atMs 11000) (run s3 (ticks [atMs 10000])) in
  swElapsedTime s2 = 3000 /\ swElapsedTime s4 = 5000.
Proof.
  cbv zeta.
  destruct (stopwatch_toggle_banks_elapsed
              (run loaded [ModeClick STOPWATCH (atMs 0)])
              zeroInputs zeroInputs zeroInputs zeroInputs
              (atMs 1000) (atMs 4000) (atMs 9000) (atMs 11000)
              [atMs 2000] [] [atMs 10000] eq_refl eq_refl)
    as (_ & (_ & E2) & _ & _ & E4 & _).
  split; [rewrite E2 | rewrite E4]; vm_compute; reflexivity.
Defined.

Lemma floor_for_stopwatch_ceiling_for_timer_sample :
  remainingAt (atMs 5600) (run loaded countingDown) = 400
  /\ timeDisplay (updateDisplay (atMs 5600) (run loaded countingDown))
     = "00:00:01".
Proof.
  apply (floor_for_stopwatch_ceiling_for_timer (atMs 5600)
           (run loaded countingDown)); vm_compute; reflexivity.
Defined.

(** Floor on the Stopwatch: 5999 ms run show as five seconds. *)
Example stopwatch_floor_sample :
  timeDisplay
    (run loaded [ModeClick STOPWATCH (atMs 0); StartClick zeroInputs (atMs 1000);
                 Tick (atMs 6999)])
  = "00:00:05".
Proof. vm_compute. reflexivity. Qed.

(** One hundred hours, one minute, one second and a half on the Stopwatch. *)
Lemma stopwatch_text_roundtrip_sample :
  let st := run loaded [ModeClick STOPWATCH (atMs 0);
                        StartClick zeroInputs (atMs 1000)] in
  exists h m s,
    parseHMS (timeDisplay (updateDisplay (atMs 360062500) st)) = Some (h, m, s)
    /\ h * 3600 + m * 60 + s = elapsedAt (atMs 360062500) st / 1000
    /\ h = elapsedAt (atMs 360062500) st / 1000 / 3600
    /\ 0 <= m <= 59 /\ 0 <= s <= 59.
Proof.
  apply (stopwatch_text_roundtrip (atMs 360062500)
           (run loaded [ModeClick STOPWATCH (atMs 0);
                        StartClick zeroInputs (atMs 1000)]));
    vm_compute; (reflexivity || discriminate).
Defined.

Example hundred_hours_text :
  timeDisplay
    (run loaded [ModeClick STOPWATCH (atMs 0); StartClick zeroInputs (atMs 1000);
                 Tick (atMs 360062500)])
  = "100:01:01".
Proof. vm_compute. reflexivity. Qed.

(** C3, as the specification words it, fails: a paused Stopwatch with five
    seconds banked comes back from the Clock with the caption Start where
    the specification asks for Resume. *)
Lemma switchMode_caption_not_resume :
  ~ (forall newMode now st,
       Reachable st ->
       btnStart (switchMode newMode now st)
       = specCaption newMode (switchMode newMode now st)).
Proof.
  intros H.
  specialize (H STOPWATCH (atMs 8000) (run loaded pausedStopwatch)
                (Reachable_loaded pausedStopwatch)).
  vm_compute in H. discriminate H.
Qed.

Example paused_stopwatch_captions :
  btnStart (run loaded [ModeClick STOPWATCH (atMs 0);
                        StartClick zeroInputs (atMs 1000);
                        StartClick zeroInputs (atMs 6000)]) = "Resume"
  /\ swElapsedTime (run loaded pausedStopwatch) = 5000
  /\ btnStart (switchMode STOPWATCH (atMs 8000) (run loaded pausedStopwatch))
     = "Start".
Proof. repeat split; vm_compute; reflexivity. Qed.

(** C4, as stated, fails: a pause 20 ms after the deadline banks -20. *)
Lemma bank_negative_after_late_pause :
  ~ (forall st, Reachable st -> 0 <= timerRemaining st).
Proof.
  intros H. specialize (H (run loaded latePause) (Reachable_loaded latePause)).
  vm_compute in H. apply H. reflexivity.
Qed.

Example late_pause_bank : timerRemaining (run loaded latePause) = -20.
Proof. vm_compute. reflexivity. Qed.

Lemma punctual_bank_nonneg_sample :
  0 <= timerRemaining
         (step (step (step loaded (ModeClick TIMER (atMs 0)))
                     (StartClick oneSecond (atMs 30)))
               (StartClick oneSecond (atMs 1030))).
Proof.
  apply punctual_bank_nonneg.
  repeat (apply preach_step); [apply preach_boot | exact I | |].
  - intros _ _. vm_compute. discriminate.
  - intros _. vm_compute. discriminate.
Defined.

(** C5, as stated, fails: after the late pause the bank holds -20, and a
    start attempt with all-zero inputs overwrites it with 0. *)
Lemma aborted_start_changes_bank :
  ~ (forall inp now st,
       Reachable st ->
       currentMode st = TIMER -> timerRunning st = false ->
       timerRemaining st <= 0 -> configuredTotal inp <= 0 ->
       btnStart_click inp now st = st).
Proof.
  intros H.
  specialize (H zeroInputs (atMs 2000) (run loaded latePause)
                (Reachable_loaded latePause)).
  assert (timerRemaining (btnStart_click zeroInputs (atMs 2000)
                            (run loaded latePause)) = 0) as E
    by (vm_compute; reflexivity).
  rewrite H in E.
  - vm_compute in E. discriminate E.
  - reflexivity.
  - reflexivity.
  - vm_compute. discriminate.
  - vm_compute. discriminate.
Qed.

Lemma nonpositive_total_aborts_start_sample :
  let st := run loaded latePause in
  btnStart_click zeroInputs (atMs 2000) st
  = with_timerRemaining (configuredTotal zeroInputs) st
  /\ timerRunning (btnStart_click zeroInputs (atMs 2000) st) = false
  /\ (timerRemaining st = configuredTotal zeroInputs ->
      btnStart_click zeroInputs (atMs 2000) st = st)
  /\ timerRunning (btnStart_click zeroInputs (atMs 2000) st) = false
  /\ timerRemaining (btnStart_click zeroInputs (atMs 2000) st) = 0.
Proof.
  apply (nonpositive_total_aborts_start zeroInputs (atMs 2000)
           (run loaded latePause));
    vm_compute; (reflexivity || discriminate).
Defined.

(** A negative field is stored as well: from the freshly shown Timer,
    minus one hour leaves -3600000 in the bank. *)
Example negative_field_is_banked :
  timerRemaining
    (run loaded [ModeClick TIMER (atMs 0);
                 StartClick (mkInputs "-1" "0" "0") (atMs 100)])
  = -3600000.
Proof. vm_compute. reflexivity. Qed.

End Samples.

(** * Further properties of the script *)

(** ** The two-digit fields *)

#[local] Transparent formatHMS pad.

Lemma pad_eq (q : Q) :
  pad q = JS.padStart 2 "0" (JS.toString (JS.Math_floor q)).
Proof. reflexivity. Qed.

Lemma formatHMS_eq (t : Z) :
  formatHMS t
  = pad (JS.div t 3600) ++ ":" ++ pad (JS.div (Z.rem t 3600) 60) ++ ":"
      ++ pad (inject_Z (Z.rem t 60)).
Proof. reflexivity. Qed.

#[local] Opaque formatHMS pad.

Section Fields.
Import JS JSFacts.

Lemma length_app (a b : string) :
  String.length (a ++ b) = (String.length a + String.length b)%nat.
Proof. induction a as [| x a IH]; simpl; [reflexivity | now rewrite IH]. Qed.

Lemma length_digits_step (fuel : nat) :
  forall n acc,
    (String.length acc <= String.length (digits fuel n acc))%nat
    /\ (S (String.length acc) <= String.length (digits (S fuel) n acc))%nat.
Proof.
  induction fuel as [| fuel IH]; intros n acc.
  - cbn [digits]. split; [lia |].
    destruct (n <? 10); cbn [String.length]; lia.
  - destruct (IH n acc) as [_ I1]. split; [lia |].
    change (digits (S (S fuel)) n acc)
      with (let acc' := String (digitChar (n mod 10)) acc in
            if n <? 10 then acc' else digits (S fuel) (n / 10) acc').
    cbv zeta. destruct (n <? 10); cbn [String.length]; [lia |].
    destruct (IH (n / 10) (String (digitChar (n mod 10)) acc)) as [_ I2].
    cbn [String.length] in I2. lia.
Qed.

Lemma padStart_long (s : string) :
  (2 <= String.length s)%nat -> padStart 2 "0" s = s.
Proof.
  intros H. unfold padStart.
  replace (2 - String.length s)%nat with 0%nat by lia. reflexivity.
Qed.

(** A negative number is printed with its sign and is never zero-filled. *)
Lemma pad_negative (q : Q) :
  Math_floor q < 0 ->
  pad q = String "-" (digits (enough (- Math_floor q)) (- Math_floor q) "").
Proof.
  intros H. rewrite pad_eq. unfold toString.
  destruct (Z.ltb_spec (Math_floor q) 0) as [_ | ?]; [| lia].
  apply padStart_long. cbn [String.length].
  destruct (length_digits_step (Z.to_nat (Z.log2 (- Math_floor q)))
              (- Math_floor q) "") as [_ L].
  unfold enough. cbn [String.length] in L. lia.
Qed.

Lemma parseUnsigned_allDec (s : string) :
  allDec s = true -> s <> "" -> parseUnsigned s = Some (parseDigits 10 s 0).
Proof.
  intros Hs Hne. destruct s as [| c r]; [congruence |].
  cbn [allDec] in Hs. apply andb_true_iff in Hs as [Hc Hr].
  destruct (isDec_cases c Hc) as (_ & _ & _ & _ & _ & _ & d & Hd & Hv).
  assert (parseRadix 10 (String c r) = Some (parseDigits 10 (String c r) 0)) as Hrad.
  { unfold parseRadix. now rewrite Hv. }
  unfold parseUnsigned. destruct r as [| x r']; [exact Hrad |].
  cbn [allDec] in Hr. apply andb_true_iff in Hr as [Hx _].
  destruct (isDec_cases x Hx) as (_ & _ & _ & Hx1 & Hx2 & _).
  rewrite Hx1, Hx2, andb_false_r. exact Hrad.
Qed.

(** X1 -- For a number whose floor is a safe integer, reading the text of
    [pad] back with [parseInt] yields that floor: the sign of a negative
    value is kept, zero-filling does not change the value, and no field is
    shorter than two characters. *)
Theorem pad_reads_back (q : Q) :
  safe (Math_floor q) ->
  parseInt (pad q) = Some (Math_floor q)
  /\ (2 <= String.length (pad q))%nat.
Proof.
  intros _.
  split; [| rewrite pad_eq; apply length_padStart].
  destruct (Z.lt_ge_cases (Math_floor q) 0) as [Hneg | Hpos].
  - rewrite pad_negative by assumption.
    set (n := - Math_floor q).
    assert (0 <= n) as Hn by (subst n; lia).
    assert (allDec (digits (enough n) n "") = true) as Hall
      by now apply allDec_digits.
    assert (digits (enough n) n "" <> "") as Hne.
    { intros E.
      destruct (length_digits_step (Z.to_nat (Z.log2 n)) n "") as [_ L].
      unfold enough in E. rewrite E in L. cbn [String.length] in L. lia. }
    unfold parseInt. cbn [trimStart].
    change (isSpace "-") with false. cbn iota.
    change (Ascii.eqb "-" "-") with true. cbn iota.
    rewrite parseUnsigned_allDec by assumption.
    rewrite parseDigits_digits by now apply enough_bound.
    cbn [parseDigits option_map]. f_equal. subst n. lia.
  - now destruct (pad_nonneg q Hpos) as (_ & _ & ->).
Qed.

(** A value from 0 to 99 takes exactly two characters, a larger one more. *)
Lemma pad_width (q : Q) :
  (0 <= Math_floor q < 100 -> String.length (pad q) = 2%nat)
  /\ (100 <= Math_floor q -> (3 <= String.length (pad q))%nat).
Proof.
  rewrite pad_eq. unfold toString. set (n := Math_floor q).
  split; intros H; (destruct (Z.ltb_spec n 0); [lia |]).
  - unfold padStart, enough. rewrite length_app.
    destruct (Z.ltb_spec n 10) as [Hs | Hb].
    + cbn [digits]. destruct (Z.ltb_spec n 10); [| lia]. reflexivity.
    + assert (1 <= Z.log2 n) as L.
      { change 1 with (Z.log2 2). apply Z.log2_le_mono. lia. }
      destruct (Z.to_nat (Z.log2 n)) as [| k] eqn:K; [lia |].
      cbn [digits]. destruct (Z.ltb_spec n 10); [lia |].
      destruct (Z.ltb_spec (n / 10) 10) as [_ | Hbig]; [reflexivity |].
      exfalso. assert (n / 10 < 10) by (apply Z.div_lt_upper_bound; lia). lia.
  - apply Nat.le_trans with (String.length (digits (enough n) n ""));
      [| unfold padStart; rewrite length_app; lia].
    assert (6 <= Z.log2 n) as L.
    { change 6 with (Z.log2 100). apply Z.log2_le_mono. lia. }
    unfold enough.
    destruct (Z.to_nat (Z.log2 n)) as [| [| k]] eqn:K; [lia | lia |].
    assert (10 <= n / 10) as D by (apply Z.div_le_lower_bound; lia).
    change (digits (S (S (S k))) n "")
      with (let a := String (digitChar (n mod 10)) "" in
            if n <? 10 then a
            else let b := String (digitChar (n / 10 mod 10)) a in
                 if n / 10 <? 10 then b else digits (S k) (n / 10 / 10) b).
    cbv zeta.
    destruct (Z.ltb_spec n 10); [lia |].
    destruct (Z.ltb_spec (n / 10) 10); [lia |].
    match goal with |- (_ <= String.length (digits (S k) ?m ?acc))%nat =>
      destruct (length_digits_step k m acc) as [_ L3] end.
    cbn [String.length] in L3. lia.
Qed.

End Fields.

(** ** The text on display *)

Section Texts.
Import JS JSFacts.

Lemma formatHMS_width (t : Z) :
  (0 <= t < 360000 -> String.length (formatHMS t) = 8%nat)
  /\ (360000 <= t -> (9 <= String.length (formatHMS t))%nat).
Proof.
  rewrite formatHMS_eq, !length_app. cbn [String.length].
  assert (Math_floor (div t 3600) = t / 3600) as E1 by reflexivity.
  assert (0 <= t -> Math_floor (div (Z.rem t 3600) 60) = t mod 3600 / 60) as E2.
  { intros H. rewrite Z.rem_mod_nonneg by lia. reflexivity. }
  assert (0 <= t -> Math_floor (inject_Z (Z.rem t 60)) = t mod 60) as E3.
  { intros H. rewrite Z.rem_mod_nonneg by lia. apply Qfloor_Z. }
  split; intros H.
  - destruct (hms_sum t) as (_ & Hh & Hm & Hs); [lia |].
    destruct (pad_width (div t 3600)) as [W1 _].
    destruct (pad_width (div (Z.rem t 3600) 60)) as [W2 _].
    destruct (pad_width (inject_Z (Z.rem t 60))) as [W3 _].
    rewrite W1, W2, W3; [reflexivity | | |].
    + rewrite E3 by lia. lia.
    + rewrite E2 by lia. lia.
    + rewrite E1. split; [lia |]. apply Z.div_lt_upper_bound; lia.
  - destruct (pad_width (div t 3600)) as [_ L].
    assert (100 <= Math_floor (div t 3600)) as Hh.
    { rewrite E1. apply Z.div_le_lower_bound; lia. }
    specialize (L Hh).
    pose proof (length_padStart 2 "0"
                  (toString (Math_floor (div (Z.rem t 3600) 60)))) as Lm.
    pose proof (length_padStart 2 "0"
                  (toString (Math_floor (inject_Z (Z.rem t 60))))) as Ls.
    rewrite <- !pad_eq in Lm, Ls. lia.
Qed.

Lemma formatHMS_negative (t : Z) :
  t < 0 -> exists rest, formatHMS t = String "-" rest.
Proof.
  intros H. rewrite formatHMS_eq.
  assert (Math_floor (div t 3600) < 0) as Hh.
  { change (Math_floor (div t 3600)) with (t / 3600).
    apply Z.div_lt_upper_bound; lia. }
  rewrite (pad_negative _ Hh). cbn [append]. eexists. reflexivity.
Qed.

Lemma formatHMS_zero_iff (t : Z) : formatHMS t = "00:00:00" <-> t = 0.
Proof.
  split; [| intros ->; apply formatHMS_0].
  intros E. destruct (Z.lt_ge_cases t 0) as [Hneg | Hpos].
  - destruct (formatHMS_negative t Hneg) as [rest R].
    rewrite R in E. discriminate E.
  - now apply formatHMS_zero_only.
Qed.

Lemma clock_text (now : Date) (st : State) :
  currentMode st = CLOCK ->
  updateDisplay now st
  = with_modeIndicator "CLOCK"
      (with_timeDisplay
         (pad (inject_Z (getHours now)) ++ ":" ++ pad (inject_Z (getMinutes now))
            ++ ":" ++ pad (inject_Z (getSeconds now))) st).
Proof. intros Hm. unfold updateDisplay. now rewrite Hm. Qed.

(** X2 -- In Clock mode the text is the wall-clock reading as HH:MM:SS:
    exactly eight characters whose three fields read back as the hours,
    minutes and seconds of the reading; the refresh changes no timing field
    and raises no completion signal. *)
Theorem clock_text_reads_back (now : Date) (st : State) :
  currentMode st = CLOCK ->
  wallClock now ->
  let st' := updateDisplay now st in
  parseHMS (timeDisplay st')
  = Some (getHours now, getMinutes now, getSeconds now)
  /\ String.length (timeDisplay st') = 8%nat
  /\ modeIndicator st' = "CLOCK"
  /\ swState st' = swState st /\ timerState st' = timerState st
  /\ alerts st' = alerts st /\ btnStart st' = btnStart st.
Proof.
  intros Hm (Hh & Hmi & Hs) st'. subst st'. rewrite clock_text by assumption.
  assert (forall z, Math_floor (inject_Z z) = z) as F by (intros; apply Qfloor_Z).
  split; [| split].
  - open_state st. reduce_state.
    rewrite parseHMS_pads by (rewrite F; lia). now rewrite !F.
  - open_state st. reduce_state. rewrite !length_app. cbn [String.length].
    destruct (pad_width (inject_Z (getHours now))) as [W1 _].
    destruct (pad_width (inject_Z (getMinutes now))) as [W2 _].
    destruct (pad_width (inject_Z (getSeconds now))) as [W3 _].
    rewrite W1, W2, W3; [reflexivity | | |]; rewrite F; lia.
  - open_state st. reduce_state. repeat split; reflexivity.
Qed.

(** X3 -- The text is all zeros exactly during the first second of the
    Stopwatch (0 <= elapsed < 1000 ms) and, on the Timer, exactly when the
    remaining time read is in (-1000, 0] ms: nothing positive, however small,
    shows as zero, and a slightly negative bank does. *)
Theorem zero_text_iff (now : Date) (st : State) :
  (currentMode st = STOPWATCH ->
   (timeDisplay (updateDisplay now st) = "00:00:00"
    <-> 0 <= elapsedAt now st < 1000))
  /\ (currentMode st = TIMER ->
      (timeDisplay (updateDisplay now st) = "00:00:00"
       <-> -1000 < remainingAt now st <= 0)).
Proof.
  split; intros Hm.
  - rewrite updateDisplay_STOPWATCH, formatHMS_zero_iff by assumption.
    pose proof (floor_bounds (elapsedAt now st)). lia.
  - rewrite timer_text, formatHMS_zero_iff by assumption.
    pose proof (ceil_bounds (remainingAt now st)). lia.
Qed.

(** X4 -- Two Stopwatch readings with non-negative elapsed times show the
    same text exactly when they have the same number of whole seconds. *)
Theorem stopwatch_text_determines_seconds
    (now1 now2 : Date) (st1 st2 : State) :
  currentMode st1 = STOPWATCH -> currentMode st2 = STOPWATCH ->
  0 <= elapsedAt now1 st1 -> 0 <= elapsedAt now2 st2 ->
  (timeDisplay (updateDisplay now1 st1) = timeDisplay (updateDisplay now2 st2)
   <-> elapsedAt now1 st1 / 1000 = elapsedAt now2 st2 / 1000).
Proof.
  intros M1 M2 H1 H2. rewrite !updateDisplay_STOPWATCH by assumption.
  change (Math_floor (div (elapsedAt now1 st1) 1000)) with (elapsedAt now1 st1 / 1000).
  change (Math_floor (div (elapsedAt now2 st2) 1000)) with (elapsedAt now2 st2 / 1000).
  set (a := elapsedAt now1 st1 / 1000). set (b := elapsedAt now2 st2 / 1000).
  assert (0 <= a) as Ha by (apply Z.div_pos; lia).
  assert (0 <= b) as Hb by (apply Z.div_pos; lia).
  split; [| now intros ->].
  intros E. pose proof (parseHMS_formatHMS a Ha) as Pa.
  rewrite E, (parseHMS_formatHMS b Hb) in Pa. injection Pa as P1 P2 P3.
  destruct (hms_sum a Ha) as (Sa & _). destruct (hms_sum b Hb) as (Sb & _). lia.
Qed.

(** X5 -- The text has exactly eight characters while the count shown is
    below one hundred hours and at least nine from then on: the hours field
    grows, it is neither wrapped nor cut. *)
Theorem text_width (now : Date) (st : State) :
  (currentMode st = STOPWATCH ->
   (0 <= elapsedAt now st < 360000000 ->
    String.length (timeDisplay (updateDisplay now st)) = 8%nat)
   /\ (360000000 <= elapsedAt now st ->
       (9 <= String.length (timeDisplay (updateDisplay now st)))%nat))
  /\ (currentMode st = TIMER ->
      (-1000 < remainingAt now st <= 359999000 ->
       String.length (timeDisplay (updateDisplay now st)) = 8%nat)
      /\ (359999000 < remainingAt now st ->
          (9 <= String.length (timeDisplay (updateDisplay now st)))%nat)).
Proof.
  split; intros Hm.
  - rewrite updateDisplay_STOPWATCH by assumption.
    pose proof (floor_bounds (elapsedAt now st)) as B.
    destruct (formatHMS_width (Math_floor (div (elapsedAt now st) 1000))) as [W8 W9].
    split; intros H; [apply W8 | apply W9]; lia.
  - rewrite timer_text by assumption.
    pose proof (ceil_bounds (remainingAt now st)) as B.
    destruct (formatHMS_width (Math_ceil (div (remainingAt now st) 1000))) as [W8 W9].
    split; intros H; [apply W8 | apply W9]; lia.
Qed.

(** X6 -- Negative counts are shown with a minus sign, not clamped: a
    running Stopwatch whose start instant lies after the clock reading (the
    clock was set back), and a stopped Timer whose bank is -1000 ms or
    below, both show a text that starts with "-". *)
Theorem negative_counts_show_minus (now : Date) (st : State) :
  (currentMode st = STOPWATCH -> swRunning st = true ->
   getTime now < swStartTime st ->
   exists rest, timeDisplay (updateDisplay now st) = String "-" rest)
  /\ (currentMode st = TIMER -> timerRunning st = false ->
      timerRemaining st <= -1000 ->
      exists rest, timeDisplay (updateDisplay now st) = String "-" rest).
Proof.
  split.
  - intros Hm Hr Hlt. rewrite updateDisplay_STOPWATCH by assumption.
    apply formatHMS_negative.
    pose proof (floor_bounds (elapsedAt now st)) as B.
    unfold elapsedAt in *. rewrite Hr in *. lia.
  - intros Hm Hr Hle. rewrite timer_text by assumption.
    apply formatHMS_negative.
    pose proof (ceil_bounds (remainingAt now st)) as B.
    unfold remainingAt in *. rewrite Hr in *. lia.
Qed.

End Texts.

(** ** Starting, pausing and resuming *)

Section Toggles.
Import JS.

Lemma timer_click_stopped (inp : Inputs) (now : Date) (st : State) :
  currentMode st = TIMER -> timerRunning st = false ->
  btnStart_click inp now st
  = if timerRemaining st <=? 0 then
      if configuredTotal inp <=? 0
      then with_timerRemaining (configuredTotal inp) st
      else with_btnStart "Pause"
             (with_timerRunning true
                (with_timerEndTime (getTime now + configuredTotal inp)
                   (with_timerInitialSet (configuredTotal inp)
                      (with_timerRemaining (configuredTotal inp) st))))
    else with_btnStart "Pause"
           (with_timerRunning true
              (with_timerEndTime (getTime now + timerRemaining st) st)).
Proof.
  intros Hm Hr. unfold btnStart_click. rewrite Hm, Hr. cbn [negb].
  destruct (timerRemaining st <=? 0); [| reflexivity].
  cbv zeta. fold (configuredTotal inp).
  replace (timerRemaining (with_timerRemaining (configuredTotal inp) st))
    with (configuredTotal inp) by (open_state st; reflexivity).
  destruct (configuredTotal inp <=? 0); reflexivity.
Qed.

Lemma timer_click_running (inp : Inputs) (now : Date) (st : State) :
  currentMode st = TIMER -> timerRunning st = true ->
  btnStart_click inp now st
  = with_btnStart "Resume"
      (with_timerRunning false
         (with_timerRemaining (timerEndTime st - getTime now) st)).
Proof. intros Hm Hr. unfold btnStart_click. now rewrite Hm, Hr. Qed.




(** X10 -- A start of the stopped Timer with nothing banked and a positive
    configured total T, when the fields, T, the clock readings, the deadline
    now + T and the difference read later are all safe integers, sets bank
    and configured total to T and the deadline to now + T and shows Pause;
    read at the same instant the display shows exactly the configured number
    of seconds, and at the later reading the remaining time is T minus the
    time gone by, not below 0. *)
Theorem fresh_start_counts_from_total
    (inp : Inputs) (now later : Date) (st : State) :
  currentMode st = TIMER ->
  timerRunning st = false ->
  timerRemaining st <= 0 ->
  0 < configuredTotal inp ->
  exactTotal inp ->
  safe (getTime now) ->
  safe (getTime later) ->
  safe (getTime now + configuredTotal inp) ->
  safe (getTime now + configuredTotal inp - getTime later) ->
  let s := btnStart_click inp now st in
  timerRunning s = true
  /\ timerRemaining s = configuredTotal inp
  /\ timerInitialSet s = configuredTotal inp
  /\ timerEndTime s = getTime now + configuredTotal inp
  /\ btnStart s = "Pause"
  /\ timeDisplay (updateDisplay now s) = formatHMS (configuredTotal inp / 1000)
  /\ remainingAt later s
     = Z.max 0 (configuredTotal inp - (getTime later - getTime now)).
Proof.
  intros Hm Hr Hb Ht _ _ _ _ _ s.
  assert (s = with_btnStart "Pause"
                (with_timerRunning true
                   (with_timerEndTime (getTime now + configuredTotal inp)
                      (with_timerInitialSet (configuredTotal inp)
                         (with_timerRemaining (configuredTotal inp) st))))) as E.
  { subst s. rewrite timer_click_stopped by assumption.
    destruct (Z.leb_spec (timerRemaining st) 0); [| lia].
    destruct (Z.leb_spec (configuredTotal inp) 0); [lia | reflexivity]. }
  assert (currentMode s = TIMER /\ timerRunning s = true
          /\ timerRemaining s = configuredTotal inp
          /\ timerInitialSet s = configuredTotal inp
          /\ timerEndTime s = getTime now + configuredTotal inp
          /\ btnStart s = "Pause") as (M & R & B & I & D & C).
  { rewrite E. open_state st. reduce_state. repeat split; assumption. }
  assert (forall t, remainingAt t s
                    = Z.max 0 (configuredTotal inp - (getTime t - getTime now)))
    as Rem.
  { intros t. unfold remainingAt, Math_max. rewrite R, D. f_equal. lia. }
  repeat split; try assumption; [| apply Rem].
  rewrite timer_text, Rem by assumption.
  replace (Z.max 0 (configuredTotal inp - (getTime now - getTime now)))
    with (configuredTotal inp) by lia.
  rewrite ceil_div_1000. f_equal.
  unfold configuredTotal.
  set (k := orZero (parseInt (inputH inp)) * 3600
            + orZero (parseInt (inputM inp)) * 60
            + orZero (parseInt (inputS inp))).
  replace (- (k * 1000)) with ((- k) * 1000) by lia.
  rewrite !Z.div_mul by lia. lia.
Qed.

(** X11 -- While it runs, the count on display follows the clock: for two
    readings in clock order the running Stopwatch shows no fewer seconds at
    the later one, and the running Timer no more, and never fewer than 0. *)
Theorem running_counts_follow_clock (now1 now2 : Date) (st : State) :
  getTime now1 <= getTime now2 ->
  (currentMode st = STOPWATCH -> swRunning st = true ->
   exists a b,
     timeDisplay (updateDisplay now1 st) = formatHMS a
     /\ timeDisplay (updateDisplay now2 st) = formatHMS b /\ a <= b)
  /\ (currentMode st = TIMER -> timerRunning st = true ->
      exists a b,
        timeDisplay (updateDisplay now1 st) = formatHMS a
        /\ timeDisplay (updateDisplay now2 st) = formatHMS b
        /\ 0 <= b <= a).
Proof.
  intros Hle. split; intros Hm Hr.
  - exists (Math_floor (div (elapsedAt now1 st) 1000)),
           (Math_floor (div (elapsedAt now2 st) 1000)).
    rewrite !updateDisplay_STOPWATCH by assumption.
    repeat split.
    change (elapsedAt now1 st / 1000 <= elapsedAt now2 st / 1000).
    apply Z.div_le_mono; [lia |]. unfold elapsedAt. rewrite Hr. lia.
  - exists (Math_ceil (div (remainingAt now1 st) 1000)),
           (Math_ceil (div (remainingAt now2 st) 1000)).
    rewrite !timer_text by assumption.
    assert (0 <= remainingAt now2 st <= remainingAt now1 st) as B.
    { unfold remainingAt, Math_max. rewrite Hr. lia. }
    repeat split.
    + pose proof (ceil_bounds (remainingAt now2 st)). lia.
    + rewrite !ceil_div_1000.
      assert (- remainingAt now1 st / 1000 <= - remainingAt now2 st / 1000)
        by (apply Z.div_le_mono; lia).
      lia.
Qed.

End Toggles.

(** ** What holds in every state the page can reach *)

Section Invariants.
Import JS.

Lemma updateDisplay_modeIndicator (now : Date) (st : State) :
  modeIndicator (updateDisplay now st) = modeName (currentMode st).
Proof.
  destruct (currentMode st) eqn:Hm.
  - rewrite clock_text by assumption. open_state st. reflexivity.
  - unfold updateDisplay. rewrite Hm. open_state st. reflexivity.
  - rewrite updateDisplay_TIMER by assumption.
    destruct (expired now st); open_state st; reflexivity.
Qed.

(** Every field after a display refresh, in terms of the state before. *)
Lemma updateDisplay_fields (now : Date) (st : State) :
  let st' := updateDisplay now st in
  currentMode st' = currentMode st
  /\ swRunning st' = swRunning st
  /\ timerRemaining st' = timerRemaining st
  /\ timerInitialSet st' = timerInitialSet st
  /\ timerRunning st' = (if expired now st then false else timerRunning st)
  /\ alerts st' = (if expired now st then S (alerts st) else alerts st)
  /\ btnStart st' = (if expired now st then "Start" else btnStart st)
  /\ modeIndicator st' = modeName (currentMode st).
Proof.
  cbv zeta.
  destruct (updateDisplay_frame now st) as (Fm & Fs & _ & Fr & Fi & Frun & Fa & Fb).
  unfold swState in Fs. injection Fs as Fs _ _.
  rewrite updateDisplay_modeIndicator. repeat split; assumption.
Qed.

(** The state [switchMode] hands to [updateDisplay]. *)
Lemma switchMode_eq (newMode : AppMode) (now : Date) (st : State) :
  switchMode newMode now st
  = updateDisplay now
      (match newMode with
       | CLOCK => with_currentMode CLOCK st
       | STOPWATCH =>
           with_btnStart (if swRunning st then "Pause" else "Start")
             (with_currentMode STOPWATCH st)
       | TIMER =>
           with_btnStart (if timerRunning st then "Pause" else "Start")
             (with_currentMode TIMER st)
       end).
Proof. unfold switchMode. destruct newMode; open_state st; reflexivity. Qed.

Lemma stopwatch_shown_not_expired (now : Date) (st : State) :
  currentMode st <> TIMER \/ timerRunning st = false -> expired now st = false.
Proof.
  unfold expired. intros [H | H].
  - destruct (currentMode st); [reflexivity | reflexivity | congruence].
  - rewrite H. now rewrite andb_false_r.
Qed.


Lemma captionOK_updateDisplay (now : Date) (st : State) :
  captionOK st -> captionOK (updateDisplay now st).
Proof.
  destruct (updateDisplay_fields now st) as (Fm & Fsw & _ & _ & Frun & _ & Fb & _).
  unfold captionOK, activeRunning. rewrite Fm, Fsw, Frun, Fb.
  destruct (currentMode st) eqn:Hm; [auto | |].
  - now rewrite stopwatch_shown_not_expired by (left; congruence).
  - destruct (expired now st); [auto | auto].
Qed.

Lemma captionOK_switchMode (newMode : AppMode) (now : Date) (st : State) :
  captionOK (switchMode newMode now st).
Proof.
  rewrite switchMode_eq. apply captionOK_updateDisplay.
  unfold captionOK, activeRunning.
  destruct newMode; open_state st; reduce_state; [exact I | |].
  - destruct swr; auto.
  - destruct tr; auto.
Qed.

Lemma captionOK_btnStart_click (inp : Inputs) (now : Date) (st : State) :
  captionOK st -> captionOK (btnStart_click inp now st).
Proof.
  intros H. destruct (currentMode st) eqn:Hm.
  - unfold btnStart_click. now rewrite Hm.
  - unfold btnStart_click. rewrite Hm. unfold captionOK, activeRunning.
    destruct (swRunning st) eqn:R; open_state st; subst; reduce_state; auto.
  - destruct (timerRunning st) eqn:R.
    + rewrite timer_click_running by assumption.
      unfold captionOK, activeRunning. open_state st; subst; reduce_state; auto.
    + rewrite timer_click_stopped by assumption.
      unfold captionOK, activeRunning in *. rewrite Hm, R in H.
      destruct (timerRemaining st <=? 0); [destruct (configuredTotal inp <=? 0) |];
        open_state st; subst; reduce_state; auto.
Qed.

Lemma captionOK_btnReset_click (now : Date) (st : State) :
  captionOK st -> captionOK (btnReset_click now st).
Proof.
  intros H. unfold btnReset_click. cbv zeta. apply captionOK_updateDisplay.
  unfold captionOK, activeRunning in *.
  destruct (currentMode st) eqn:Hm; open_state st; subst; reduce_state; auto.
Qed.

(** X12 -- In every state reached from the loaded page, whenever the
    Stopwatch or the Timer is shown the start/pause button reads Pause
    exactly when the mode shown is running; when it is not running the
    button reads Start or Resume.  A Timer running out in the background
    never rewrites the caption of the Stopwatch. *)
Theorem caption_tracks_running (st : State) :
  Reachable st ->
  currentMode st <> CLOCK ->
  (btnStart st = "Pause" <-> activeRunning st = true)
  /\ (activeRunning st = false ->
      btnStart st = "Start" \/ btnStart st = "Resume").
Proof.
  intros R Hm.
  assert (captionOK st) as C.
  { clear Hm. induction R as [caption now | st e R IH].
    - unfold boot. apply captionOK_updateDisplay. exact I.
    - destruct e; cbn [step].
      + now apply captionOK_updateDisplay.
      + apply captionOK_switchMode.
      + now apply captionOK_btnStart_click.
      + now apply captionOK_btnReset_click. }
  unfold captionOK in C.
  destruct (currentMode st); [congruence | |];
    destruct (activeRunning st); split; try split; intros;
      try assumption; try reflexivity; try discriminate;
      destruct C as [C | C]; rewrite C in *; discriminate.
Qed.

(** X13 -- In every state reached from the loaded page the mode indicator
    reads the name of the mode held in [currentMode]. *)
Theorem mode_indicator_names_mode (st : State) :
  Reachable st -> modeIndicator st = modeName (currentMode st).
Proof.
  induction 1 as [caption now | st e R IH].
  - unfold boot. now rewrite updateDisplay_modeIndicator.
  - destruct e as [now | newMode now | inp now | now]; cbn [step].
    + destruct (updateDisplay_fields now st) as (-> & _ & _ & _ & _ & _ & _ & ->).
      reflexivity.
    + rewrite switchMode_eq.
      match goal with |- context [updateDisplay now ?s] =>
        destruct (updateDisplay_fields now s) as (-> & _ & _ & _ & _ & _ & _ & ->) end.
      reflexivity.
    + destruct (currentMode st) eqn:Hm.
      * unfold btnStart_click. rewrite Hm. cbv iota. rewrite Hm. exact IH.
      * unfold btnStart_click. rewrite Hm.
        destruct (swRunning st); open_state st; subst; first [exact IH | reflexivity].
      * destruct (timerRunning st) eqn:Tr.
        { rewrite timer_click_running by assumption.
          open_state st; subst; first [exact IH | reflexivity]. }
        { rewrite timer_click_stopped by assumption.
          destruct (timerRemaining st <=? 0);
            [destruct (configuredTotal inp <=? 0) |];
            open_state st; subst; first [exact IH | reflexivity]. }
    + unfold btnReset_click. cbv zeta.
      match goal with |- context [updateDisplay now ?s] =>
        destruct (updateDisplay_fields now s) as (-> & _ & _ & _ & _ & _ & _ & ->) end.
      reflexivity.
Qed.

Lemma safe_0 : safe 0.
Proof. unfold safe, maxSafe. lia. Qed.

Lemma exactState_updateDisplay (now : Date) (st : State) :
  exactState st -> exactState (updateDisplay now st).
Proof.
  unfold exactState.
  destruct (updateDisplay_frame now st) as (_ & Fs & -> & -> & -> & -> & _).
  unfold swState in Fs. injection Fs as _ -> ->.
  intros (H1 & H2 & H3 & H4 & H5 & H6 & H7 & H8).
  repeat (split; [assumption |]).
  destruct (expired now st); [discriminate | exact H8].
Qed.

Lemma exactTotal_safe (inp : Inputs) :
  exactTotal inp -> safe (configuredTotal inp).
Proof. intros (_ & _ & _ & _ & _ & _ & _ & H). exact H. Qed.

Lemma exactState_step (st : State) (e : Event) :
  exactState st -> exactEvent st e -> exactState (step st e).
Proof.
  intros I X. destruct e as [now | newMode now | inp now | now]; cbn [step].
  - now apply exactState_updateDisplay.
  - rewrite switchMode_eq. apply exactState_updateDisplay.
    unfold exactState in *.
    destruct newMode; open_state st; reduce_state; exact I.
  - cbn [exactEvent] in X. destruct X as [Xn X].
    destruct I as (H1 & H2 & H3 & H4 & H5 & H6 & H7 & H8).
    destruct (currentMode st) eqn:Hm.
    + unfold btnStart_click. rewrite Hm. unfold exactState. auto 10.
    + unfold btnStart_click. rewrite Hm. unfold exactState.
      destruct (swRunning st); open_state st; subst; reduce_state; auto 10.
    + destruct (timerRunning st) eqn:Tr.
      * rewrite timer_click_running by assumption. unfold exactState.
        specialize (H8 eq_refl).
        open_state st; subst; reduce_state.
        repeat (split; [assumption |]).
        split; [auto | discriminate].
      * rewrite timer_click_stopped by assumption. unfold exactState.
        destruct (Z.leb_spec (timerRemaining st) 0) as [Hle | Hgt].
        { destruct X as [Xt Xd]. apply exactTotal_safe in Xt.
          destruct (Z.leb_spec (configuredTotal inp) 0) as [Hz | Hp].
          - open_state st; subst; reduce_state.
            repeat (split; [assumption |]).
            split; [lia | discriminate].
          - specialize (Xd Hp).
            open_state st; subst; reduce_state.
            repeat (split; [assumption |]).
            split; [lia |]. split; auto. }
        { open_state st; subst; reduce_state.
          repeat (split; [assumption |]). auto. }
  - unfold btnReset_click. cbv zeta. apply exactState_updateDisplay.
    unfold exactState in *.
    destruct I as (H1 & H2 & H3 & H4 & H5 & H6 & H7 & H8).
    pose proof safe_0 as Z0.
    destruct (currentMode st); open_state st; reduce_state;
      repeat (split; [assumption |]); try (split; [lia | discriminate]); auto.
Qed.

(** X14 -- In every state reached from the loaded page by events whose
    arithmetic is exact (the clock reading of each press on start/pause, the
    parsed fields and every number the handler computes are safe integers),
    every number kept in the state is a safe integer, the configured total
    [timerInitialSet] is never negative, a positive bank implies that a
    positive total has been configured, and a running Timer has a positive
    bank. *)
Theorem timer_fields_invariant (st : State) :
  ReachableExactly st ->
  (safe (swStartTime st) /\ safe (swElapsedTime st)
   /\ safe (timerEndTime st) /\ safe (timerRemaining st)
   /\ safe (timerInitialSet st))
  /\ 0 <= timerInitialSet st
  /\ (0 < timerRemaining st -> 0 < timerInitialSet st)
  /\ (timerRunning st = true -> 0 < timerRemaining st).
Proof.
  intros R.
  assert (exactState st) as I.
  { induction R as [caption now | st e R IH X].
    - unfold boot. apply exactState_updateDisplay.
      unfold exactState. cbn. pose proof safe_0 as Z0.
      repeat (split; [assumption |]).
      split; [lia |]. split; [lia | discriminate].
    - now apply exactState_step. }
  destruct I as (H1 & H2 & H3 & H4 & H5 & H6 & H7 & H8).
  split; [repeat (split; [assumption |]); assumption |].
  split; [assumption |]. split; assumption.
Qed.

Lemma switch_to_expired_timer_fields (now : Date) (st : State) :
  timerRunning st = true ->
  timerEndTime st <= getTime now ->
  timerRunning (switchMode TIMER now st) = false
  /\ alerts (switchMode TIMER now st) = S (alerts st)
  /\ btnStart (switchMode TIMER now st) = "Start"
  /\ timeDisplay (switchMode TIMER now st) = "00:00:00".
Proof.
  intros Hr Hd. rewrite switchMode_eq.
  match goal with |- context [updateDisplay now ?s] =>
    destruct (expiry_tick now s) as [_ X] end.
  - reflexivity.
  - open_state st. exact Hr.
  - open_state st. exact Hd.
  - rewrite X. open_state st. reduce_state. auto.
Qed.

(** X15 -- A Timer left running while another mode is shown is not
    watched: interval callbacks, however late, leave it running and raise no
    signal.  The switch back to the Timer after its deadline is what stops
    it: it raises the completion signal once, shows all zeros and leaves the
    caption at Start. *)
Theorem background_timer_completes_on_return
    (st : State) (readings : list Date) (now : Date) :
  currentMode st <> TIMER ->
  timerRunning st = true ->
  timerEndTime st <= getTime now ->
  let st1 := run st (ticks readings) in
  let st2 := switchMode TIMER now st1 in
  timerState st1 = timerState st /\ alerts st1 = alerts st
  /\ btnStart st1 = btnStart st
  /\ timerRunning st2 = false /\ alerts st2 = S (alerts st)
  /\ btnStart st2 = "Start" /\ timeDisplay st2 = "00:00:00".
Proof.
  intros Hm Hr Hd st1 st2.
  assert (forall rs s, currentMode s <> TIMER ->
            currentMode (run s (ticks rs)) = currentMode s
            /\ timerState (run s (ticks rs)) = timerState s
            /\ alerts (run s (ticks rs)) = alerts s
            /\ btnStart (run s (ticks rs)) = btnStart s) as K.
  { induction rs as [| t rs IH]; intros s Hs; [now repeat split |].
    cbn [ticks map run fold_left step].
    destruct (updateDisplay_frame t s) as (Fm & _ & Fe & Frem & Fi & Frun & Fa & Fb).
    rewrite stopwatch_shown_not_expired in Frun, Fa, Fb by now left.
    destruct (IH (updateDisplay t s)) as (Im & It & Ia & Ib); [congruence |].
    unfold run, ticks in *. rewrite Im, It, Ia, Ib.
    unfold timerState. rewrite Fm, Fe, Frem, Fi, Frun, Fa, Fb. auto. }
  destruct (K readings st Hm) as (K1 & K2 & K3 & K4). fold st1 in K1, K2, K3, K4.
  unfold timerState in K2. injection K2 as Kr Ke Kb Ki.
  repeat split; try assumption.
  1: { unfold timerState. now rewrite Kr, Ke, Kb, Ki. }
  all: destruct (switch_to_expired_timer_fields now st1) as (S1 & S2 & S3 & S4);
    [congruence | lia | fold st2 in S1, S2, S3, S4; congruence].
Qed.

End Invariants.

(** ** Class lists and the hide timeout *)

Section Chrome.
Import ClassList.

Lemma contains_app (c : string) (a b : list string) :
  contains c (a ++ b) = contains c a || contains c b.
Proof. unfold contains. apply existsb_app. Qed.

Lemma contains_add (c d : string) (cls : list string) :
  contains d (add c cls) = String.eqb d c || contains d cls.
Proof.
  unfold add. destruct (contains c cls) eqn:E.
  - destruct (String.eqb_spec d c) as [-> |]; [now rewrite E | reflexivity].
  - rewrite contains_app. unfold contains at 2. cbn [existsb].
    rewrite orb_false_r. apply orb_comm.
Qed.

Lemma contains_remove (c d : string) (cls : list string) :
  contains d (remove c cls) = negb (String.eqb d c) && contains d cls.
Proof.
  unfold contains, remove. induction cls as [| x cls IH]; cbn [filter existsb].
  - now rewrite andb_false_r.
  - destruct (String.eqb_spec c x) as [-> | Hcx]; cbn [negb existsb].
    + rewrite IH. destruct (String.eqb_spec d x); [| reflexivity].
      now cbn.
    + rewrite IH. destruct (String.eqb_spec d x) as [-> | Hdx]; cbn [orb].
      * destruct (String.eqb_spec x c); [congruence | reflexivity].
      * reflexivity.
Qed.

Lemma NoDup_add (c : string) (cls : list string) :
  NoDup cls -> NoDup (add c cls).
Proof.
  intros H. unfold add. destruct (contains c cls) eqn:E; [exact H |].
  apply NoDup_app; [exact H | repeat constructor; intros [] |].
  intros x Hx [<- | []]. unfold contains in E.
  assert (existsb (String.eqb c) cls = true) as T; [| congruence].
  apply existsb_exists. exists c. split; [exact Hx | apply String.eqb_refl].
Qed.

Lemma NoDup_remove (c : string) (cls : list string) :
  NoDup cls -> NoDup (remove c cls).
Proof. intros H. unfold remove. now apply NoDup_filter. Qed.

Lemma onElement_same (e : Element) f (cl : Classes) :
  onElement e f cl e = f (cl e).
Proof. unfold onElement. now destruct e. Qed.

Lemma onElement_other (e x : Element) f (cl : Classes) :
  Element_eqb x e = false -> onElement e f cl x = cl x.
Proof. unfold onElement. now intros ->. Qed.

Lemma step_currentMode (st : State) (e : Event) :
  currentMode (step st e)
  = match e with
    | ModeClick newMode _ => newMode
    | _ => currentMode st
    end.
Proof.
  destruct e as [now | newMode now | inp now | now]; cbn [step].
  - now destruct (updateDisplay_frame now st) as (-> & _).
  - now destruct (switchMode_frame newMode now st) as (-> & _).
  - destruct (currentMode st) eqn:Hm.
    + unfold btnStart_click. rewrite Hm. exact Hm.
    + unfold btnStart_click. rewrite Hm.
      destruct (swRunning st); open_state st; exact Hm.
    + destruct (timerRunning st) eqn:Tr.
      * rewrite timer_click_running by assumption. open_state st; exact Hm.
      * rewrite timer_click_stopped by assumption.
        destruct (timerRemaining st <=? 0);
          [destruct (configuredTotal inp <=? 0) |]; open_state st; exact Hm.
  - unfold btnReset_click. cbv zeta.
    match goal with |- context [updateDisplay now ?s] =>
      destruct (updateDisplay_frame now s) as (-> & _) end.
    destruct (currentMode st) eqn:Hm; open_state st; exact Hm.
Qed.

(** The class tests after [switchModeClasses], element by element. *)
Lemma switchModeClasses_contains (newMode : AppMode) (cl : Classes) :
  (forall m, contains "active" (switchModeClasses newMode cl (modeButton m))
             = AppMode_eqb m newMode)
  /\ contains "hidden" (switchModeClasses newMode cl BtnStart)
     = AppMode_eqb newMode CLOCK
  /\ contains "hidden" (switchModeClasses newMode cl BtnReset)
     = AppMode_eqb newMode CLOCK
  /\ contains "hidden" (switchModeClasses newMode cl TimerConfig)
     = negb (AppMode_eqb newMode TIMER).
Proof.
  split; [intros m | repeat split];
    destruct newMode; try destruct m;
    cbv [switchModeClasses onElement modeButton AppMode_eqb Element_eqb];
    rewrite ?contains_add, ?contains_remove; reflexivity.
Qed.

Lemma switchModeClasses_frame (newMode : AppMode) (cl : Classes) (e : Element) :
  (forall d, d <> "active" -> d <> "hidden" ->
     contains d (switchModeClasses newMode cl e) = contains d (cl e))
  /\ (NoDup (cl e) -> NoDup (switchModeClasses newMode cl e))
  /\ switchModeClasses newMode cl Controls = cl Controls
  /\ switchModeClasses newMode cl Body = cl Body.
Proof.
  split; [| split; [| split]].
  - intros d Ha Hh.
    assert (String.eqb d "active" = false) as Ea by now apply String.eqb_neq.
    assert (String.eqb d "hidden" = false) as Eh by now apply String.eqb_neq.
    destruct newMode, e;
      cbv [switchModeClasses onElement modeButton AppMode_eqb Element_eqb];
      rewrite ?contains_add, ?contains_remove, ?Ea, ?Eh; reflexivity.
  - intros H.
    destruct newMode, e;
      cbv [switchModeClasses onElement modeButton AppMode_eqb Element_eqb];
      repeat first [apply NoDup_add | apply NoDup_remove]; exact H.
  - destruct newMode; reflexivity.
  - destruct newMode; reflexivity.
Qed.

(** X16 -- After a mode switch exactly the button of the new mode carries
    the class active, the start and reset buttons are hidden exactly in Clock
    mode and the timer fields exactly outside Timer mode, whatever the class
    lists were before; and every later event of the page keeps the classes in
    step with the mode on display. *)
Theorem classes_follow_mode (pg : Page) (e : PageEvent) :
  classesMatch pg \/ (exists newMode now, e = Core (ModeClick newMode now)) ->
  classesMatch (pageStep pg e).
Proof.
  intros H.
  assert (forall ev, (forall m t, ev <> ModeClick m t) -> classesMatch pg ->
            classesMatch
              (mkPage (classes pg) (controlsTimeout pg) (timeouts pg)
                 (step (app pg) ev))) as Keep.
  { intros ev Hev C. unfold classesMatch in *. cbn [classes app].
    rewrite step_currentMode.
    destruct ev; try exact C. now destruct (Hev newMode now). }
  destruct e as [h now | due f h now | ev]; cbn [pageStep].
  - destruct H as [C | (m & t & E)]; [| discriminate E].
    unfold showControls, armHide, classesMatch in *. cbn [classes app].
    destruct C as (Ca & Cs & Cr & Ct). repeat split.
    + intros m. rewrite <- Ca. now destruct m.
    + exact Cs.
    + exact Cr.
    + exact Ct.
  - destruct H as [C | (m & t & E)]; [| discriminate E].
    unfold hideControls, armHide, classesMatch in *.
    destruct C as (Ca & Cs & Cr & Ct).
    destruct f; cbn [classes app]; repeat split; try assumption;
      intros m; rewrite <- Ca; now destruct m.
  - destruct ev as [t | m t | inp t | t].
    + destruct H as [C | (m & t' & E)]; [| discriminate E].
      apply (Keep (Tick t)); [discriminate | exact C].
    + unfold pageSwitchMode, classesMatch. cbn [classes app].
      destruct (switchMode_frame m t (app pg)) as (-> & _).
      destruct (switchModeClasses_contains m (classes pg)) as (Ca & Cs & Cr & Ct).
      repeat split; assumption.
    + destruct H as [C | (m & t' & E)]; [| discriminate E].
      apply (Keep (StartClick inp t)); [discriminate | exact C].
    + destruct H as [C | (m & t' & E)]; [| discriminate E].
      apply (Keep (ResetClick t)); [discriminate | exact C].
Qed.

(** X17 -- A mode switch touches no class other than active and hidden,
    leaves the class lists of the controls bar and of the body as they are,
    and keeps every class list free of duplicates. *)
Theorem switchMode_class_frame
    (newMode : AppMode) (now : Date) (pg : Page) (e : Element) :
  (forall d, d <> "active" -> d <> "hidden" ->
     contains d (classes (pageSwitchMode newMode now pg) e)
     = contains d (classes pg e))
  /\ (NoDup (classes pg e) -> NoDup (classes (pageSwitchMode newMode now pg) e))
  /\ classes (pageSwitchMode newMode now pg) Controls = classes pg Controls
  /\ classes (pageSwitchMode newMode now pg) Body = classes pg Body
  /\ timeouts (pageSwitchMode newMode now pg) = timeouts pg
  /\ controlsTimeout (pageSwitchMode newMode now pg) = controlsTimeout pg.
Proof.
  unfold pageSwitchMode. cbn [classes timeouts controlsTimeout].
  destruct (switchModeClasses_frame newMode (classes pg) e) as (A & B & C & D).
  repeat split; assumption.
Qed.

End Chrome.

Section HideTimeout.
Import ClassList.

Lemma clearTimeout_single (h : N) (due : Z) : clearTimeout h [(h, due)] = [].
Proof. unfold clearTimeout. cbn [filter fst]. now rewrite N.eqb_refl. Qed.

(** Under the invariant, line 99 (and 106) leaves no timeout pending. *)
Lemma clearControlsTimeout_all (pg : Page) :
  hideInv pg -> clearControlsTimeout pg = [].
Proof.
  intros [[E | (h & due & E & C & Hh)] _]; unfold clearControlsTimeout.
  - rewrite E. destruct (controlsTimeout pg) as [h0 |]; [| reflexivity].
    destruct (N.eqb h0 0); reflexivity.
  - rewrite E, C. destruct (N.eqb_spec h 0); [congruence |].
    apply clearTimeout_single.
Qed.

Lemma hideInv_armHide (h : N) (now : Z) (pg : Page) :
  h <> 0%N -> clearControlsTimeout pg = [] -> hideInv (armHide h now pg).
Proof.
  intros Hh E. unfold hideInv, armHide. cbn [timeouts controlsTimeout classes].
  rewrite E. cbn [app]. split; [| discriminate].
  right. exists h, (now + 4000)%Z. auto.
Qed.

Lemma hideInv_hidden (cl : Classes) (ct : option N) (a : State) :
  hideInv
    (mkPage
       (onElement Body (add "cursor-none")
          (onElement Controls (remove "visible") cl)) ct [] a).
Proof.
  unfold hideInv. cbn [timeouts classes]. split; [now left |].
  rewrite onElement_other by reflexivity.
  rewrite onElement_same, contains_remove. cbn. discriminate.
Qed.

Lemma hideInv_step (pg : Page) (e : PageEvent) :
  hideInv pg -> deliverable pg e -> hideInv (pageStep pg e).
Proof.
  intros I D. destruct e as [h now | due f h now | ev]; cbn [pageStep deliverable] in *.
  - destruct D as [Hh _]. unfold showControls. cbv zeta.
    apply hideInv_armHide; [exact Hh |].
    unfold clearControlsTimeout. cbn [controlsTimeout timeouts].
    exact (clearControlsTimeout_all pg I).
  - destruct D as [Hin [Hh _]].
    assert (clearTimeout due (timeouts pg) = []) as E.
    { destruct I as [[E | (h0 & d0 & E & _)] _]; rewrite E in *; [destruct Hin |].
      destruct Hin as [<- | []]. apply clearTimeout_single. }
    rewrite E. unfold hideControls. destruct f.
    + apply hideInv_armHide; [exact Hh |].
      unfold clearControlsTimeout. cbn [controlsTimeout timeouts].
      destruct (controlsTimeout pg) as [h0 |]; [| reflexivity].
      destruct (N.eqb h0 0); reflexivity.
    + apply hideInv_hidden.
  - assert (forall a, hideInv (mkPage (classes pg) (controlsTimeout pg)
                                 (timeouts pg) a)) as Same.
    { intros a. exact I. }
    destruct ev as [t | m t | inp t | t]; try apply Same.
    unfold pageSwitchMode, hideInv. cbn [timeouts controlsTimeout classes].
    destruct (switchModeClasses_frame m (classes pg) Controls) as (_ & _ & -> & _).
    exact I.
Qed.

Lemma hideInv_reachable (pg : Page) : PageReachable pg -> hideInv pg.
Proof.
  induction 1 as [cl caption f h now Hh | pg e R IH D].
  - unfold pageBoot, hideControls. destruct f.
    + now apply hideInv_armHide.
    + apply hideInv_hidden.
  - now apply hideInv_step.
Qed.

(** X18 -- In every state the page can reach, at most one [hideControls]
    timeout is pending and [controlsTimeout] holds its handle; and whenever
    the controls bar is visible such a timeout is pending, so visible
    controls are always on their way to being hidden. *)
Theorem one_hide_timeout_pending (pg : Page) :
  PageReachable pg ->
  (timeouts pg = []
   \/ exists h due, timeouts pg = [(h, due)] /\ controlsTimeout pg = Some h)
  /\ (contains "visible" (classes pg Controls) = true -> timeouts pg <> [])
  /\ (List.length (timeouts pg) <= 1)%nat.
Proof.
  intros R.
  pose proof (hideInv_reachable pg R) as I.
  destruct I as [[E | (h & due & E & C & _)] V]; rewrite E in *;
    repeat split; try exact V; cbn [List.length]; try lia.
  - now left.
  - right. exists h, due. auto.
Qed.

(** X19 -- A mouse, touch or key event on a reachable page shows the
    controls and the cursor and restarts the countdown from scratch: the
    timeout that was pending is cancelled and the only one pending afterwards
    is due 4000 ms after the event.  The timing state is not touched. *)
Theorem interaction_restarts_countdown (pg : Page) (h : N) (now : Z) :
  PageReachable pg ->
  deliverable pg (Interaction h now) ->
  let pg' := pageStep pg (Interaction h now) in
  timeouts pg' = [(h, (now + 4000)%Z)]
  /\ controlsTimeout pg' = Some h
  /\ contains "visible" (classes pg' Controls) = true
  /\ contains "cursor-none" (classes pg' Body) = false
  /\ app pg' = app pg.
Proof.
  intros R D pg'.
  pose proof (hideInv_reachable pg R) as I.
  subst pg'. cbn [pageStep]. unfold showControls, armHide. cbv zeta.
  cbn [timeouts controlsTimeout classes app].
  assert (clearControlsTimeout
            (mkPage
               (onElement Body (remove "cursor-none")
                  (onElement Controls (add "visible") (classes pg)))
               (controlsTimeout pg) (timeouts pg) (app pg)) = []) as E
    by exact (clearControlsTimeout_all pg I).
  rewrite E. repeat split.
  - rewrite onElement_other by reflexivity.
    rewrite onElement_same, contains_add. reflexivity.
  - rewrite onElement_same, contains_remove. reflexivity.
Qed.

(** X20 -- When the pending timeout comes due on a reachable page: with
    the focus on an input element nothing is hidden, the class lists stay as
    they are and a new timeout is armed for 4000 ms later; otherwise the
    controls lose the class visible, the body gains cursor-none and no
    timeout is left pending.  Either way the timing state is not touched. *)
Theorem due_timeout_hides_unless_focused
    (pg : Page) (due : N) (inputFocused : bool) (h : N) (now : Z) :
  PageReachable pg ->
  deliverable pg (HideDue due inputFocused h now) ->
  let pg' := pageStep pg (HideDue due inputFocused h now) in
  app pg' = app pg
  /\ (if inputFocused then
        (forall e, classes pg' e = classes pg e)
        /\ timeouts pg' = [(h, (now + 4000)%Z)]
        /\ controlsTimeout pg' = Some h
      else
        contains "visible" (classes pg' Controls) = false
        /\ contains "cursor-none" (classes pg' Body) = true
        /\ timeouts pg' = []).
Proof.
  intros R D pg'.
  pose proof (hideInv_reachable pg R) as I.
  destruct D as [Hin [Hh _]].
  assert (clearTimeout due (timeouts pg) = []) as E.
  { destruct I as [[E | (h0 & d0 & E & _)] _]; rewrite E in *; [destruct Hin |].
    destruct Hin as [<- | []]. apply clearTimeout_single. }
  subst pg'. cbn [pageStep]. rewrite E. unfold hideControls.
  destruct inputFocused.
  - unfold armHide, clearControlsTimeout.
    cbn [timeouts controlsTimeout classes app].
    assert (match controlsTimeout pg with
            | Some h0 => if N.eqb h0 0 then [] else clearTimeout h0 []
            | None => []
            end = @nil (N * Z)) as ->.
    { destruct (controlsTimeout pg) as [h0 |]; [| reflexivity].
      destruct (N.eqb h0 0); reflexivity. }
    repeat split.
  - cbn [timeouts controlsTimeout classes app]. repeat split.
    + rewrite onElement_other by reflexivity.
      rewrite onElement_same, contains_remove. reflexivity.
    + rewrite onElement_same, contains_add. reflexivity.
Qed.

End HideTimeout.

(** ** A whole countdown, and fields that hold no number *)

Section Countdown.
Import JS JSFacts.

Lemma running_tick_before_deadline (now : Date) (st : State) :
  currentMode st = TIMER -> timerRunning st = true ->
  getTime now < timerEndTime st ->
  let st' := updateDisplay now st in
  currentMode st' = TIMER /\ timerRunning st' = true
  /\ timerEndTime st' = timerEndTime st /\ alerts st' = alerts st.
Proof.
  intros Hm Hr Hd. cbv zeta.
  destruct (updateDisplay_frame now st) as (-> & _ & -> & _ & _ & -> & -> & _).
  assert (expired now st = false) as ->.
  { unfold expired. rewrite Hm, Hr. cbn [AppMode_eqb andb].
    apply Z.leb_gt. exact Hd. }
  auto.
Qed.

(** X21 -- With the Timer shown and running and no button pressed, a run
    of interval callbacks raises the completion signal exactly once if one of
    the clock readings is at or past the deadline, and not at all otherwise;
    the Timer is still running afterwards exactly in the second case. *)
Theorem countdown_signals_once (readings : list Date) :
  forall st,
    currentMode st = TIMER ->
    timerRunning st = true ->
    let passed :=
      existsb (fun t => timerEndTime st <=? getTime t) readings in
    alerts (run st (ticks readings))
    = (if passed then S (alerts st) else alerts st)
    /\ timerRunning (run st (ticks readings)) = negb passed.
Proof.
  induction readings as [| now readings IH]; intros st Hm Hr; [now split |].
  cbv zeta. cbn [existsb ticks map run fold_left step].
  destruct (Z.leb_spec (timerEndTime st) (getTime now)) as [Hd | Hd]; cbn [orb].
  - destruct (expiry_tick now st Hm Hr Hd) as [_ E].
    assert (currentMode (updateDisplay now st) = TIMER
            /\ timerRunning (updateDisplay now st) = false
            /\ alerts (updateDisplay now st) = S (alerts st)) as (M & R & A).
    { rewrite E. open_state st. reduce_state. auto. }
    destruct (stopped_timer_ticks readings _ M R) as (_ & Kt & _ & Ka & _).
    unfold timerState in Kt. injection Kt as Kr _ _ _.
    unfold run, ticks in *. rewrite Ka, Kr, A, R. auto.
  - destruct (running_tick_before_deadline now st Hm Hr Hd) as (M & R & E & A).
    destruct (IH (updateDisplay now st) M R) as [I1 I2].
    unfold run, ticks in *. rewrite I1, I2, E, A. auto.
Qed.

Lemma digitValue_not_dec (c : ascii) :
  isDec c = false -> digitValue 10 c = None.
Proof.
  unfold isDec, digitValue. intros H.
  set (n := nat_of_ascii c) in *.
  assert ((48 <=? Z.of_nat n) && (Z.of_nat n <=? 57) = false) as ->.
  { apply andb_false_iff in H.
    apply andb_false_iff.
    destruct H as [H | H]; [left | right];
      apply Nat.leb_gt in H; apply Z.leb_gt; lia. }
  destruct ((97 <=? Z.of_nat n) && (Z.of_nat n <=? 122)) eqn:L.
  - apply andb_true_iff in L as [L1 L2].
    apply Z.leb_le in L1. destruct (Z.ltb_spec (Z.of_nat n - 87) 10); [lia |].
    reflexivity.
  - destruct ((65 <=? Z.of_nat n) && (Z.of_nat n <=? 90)) eqn:U; [| reflexivity].
    apply andb_true_iff in U as [U1 U2].
    apply Z.leb_le in U1. destruct (Z.ltb_spec (Z.of_nat n - 55) 10); [lia |].
    reflexivity.
Qed.

Lemma parseInt_no_number (s : string) :
  trimStart s = ""
  \/ (exists c r, trimStart s = String c r /\ isDec c = false
                  /\ c <> "-"%char /\ c <> "+"%char) ->
  parseInt s = None.
Proof.
  intros [E | (c & r & E & Hd & Hm & Hp)]; unfold parseInt; rewrite E;
    [reflexivity |].
  apply Ascii.eqb_neq in Hm. apply Ascii.eqb_neq in Hp. rewrite Hm, Hp.
  assert (Ascii.eqb c "0" = false) as Z0.
  { destruct (Ascii.eqb_spec c "0") as [-> |]; [discriminate Hd | reflexivity]. }
  assert (parseRadix 10 (String c r) = None) as P.
  { unfold parseRadix. now rewrite digitValue_not_dec. }
  unfold parseUnsigned. destruct r; [exact P |]. rewrite Z0. exact P.
Qed.

(** X22 -- An input field that is empty or blank, or whose first character
    after leading white space is an ASCII character that is neither a sign
    nor a digit, counts as 0; when all three fields are like that, a start
    of the stopped Timer with nothing banked is ignored: the Timer stays
    stopped, the bank is 0 and no other field changes. *)
Theorem fields_without_number_count_as_zero
    (inp : Inputs) (now : Date) (st : State) :
  (forall s, In s [inputH inp; inputM inp; inputS inp] ->
     trimStart s = ""
     \/ (exists c r, trimStart s = String c r
                     /\ (nat_of_ascii c < 128)%nat /\ isDec c = false
                     /\ c <> "-"%char /\ c <> "+"%char)) ->
  currentMode st = TIMER ->
  timerRunning st = false ->
  timerRemaining st <= 0 ->
  configuredTotal inp = 0
  /\ btnStart_click inp now st = with_timerRemaining 0 st.
Proof.
  intros F Hm Hr Hb.
  assert (configuredTotal inp = 0) as T.
  { assert (forall s, In s [inputH inp; inputM inp; inputS inp] ->
              parseInt s = None) as P.
    { intros s Hs. apply parseInt_no_number.
      destruct (F s Hs) as [E | (c & r & E & _ & Hd & Hm' & Hp)];
        [now left | right; exists c, r; auto]. }
    unfold configuredTotal. rewrite !P by (cbn [In]; auto). reflexivity. }
  split; [exact T |].
  rewrite timer_click_stopped, T by assumption.
  destruct (Z.leb_spec (timerRemaining st) 0); [reflexivity | lia].
Qed.

End Countdown.

(** ** Instances of the further properties *)

Section MoreSamples.

Lemma pad_reads_back_sample :
  JS.parseInt (pad (JS.div (-7) 2)) = Some (-4)
  /\ JS.parseInt (pad (JS.div 7 2)) = Some 3.
Proof.
  destruct (pad_reads_back (JS.div (-7) 2)) as [A _];
    [vm_compute; split; discriminate |].
  destruct (pad_reads_back (JS.div 7 2)) as [B _];
    [vm_compute; split; discriminate |].
  split; [exact A | exact B].
Defined.

Lemma clock_text_reads_back_sample :
  parseHMS (timeDisplay (updateDisplay (mkDate 5000 23 59 7) loaded))
  = Some (23, 59, 7)
  /\ String.length (timeDisplay (updateDisplay (mkDate 5000 23 59 7) loaded))
     = 8%nat.
Proof.
  destruct (clock_text_reads_back (mkDate 5000 23 59 7) loaded) as (A & B & _).
  - reflexivity.
  - unfold wallClock. cbn [getHours getMinutes getSeconds]. lia.
  - split; [exact A | exact B].
Defined.

Example clock_text_sample :
  timeDisplay (updateDisplay (mkDate 5000 23 59 7) loaded) = "23:59:07"
  /\ timeDisplay loaded = "09:30:00".
Proof. split; vm_compute; reflexivity. Qed.

Lemma zero_text_iff_sample :
  timeDisplay (updateDisplay (atMs 1999) (run loaded stopwatchRunning))
  = "00:00:00".
Proof.
  destruct (zero_text_iff (atMs 1999) (run loaded stopwatchRunning)) as [S _].
  apply S; [reflexivity | vm_compute; split; first [reflexivity | discriminate]].
Defined.

Lemma stopwatch_text_determines_seconds_sample :
  timeDisplay (updateDisplay (atMs 6999) (run loaded stopwatchRunning))
  = timeDisplay (updateDisplay (atMs 6000) (run loaded stopwatchRunning)).
Proof.
  apply (stopwatch_text_determines_seconds (atMs 6999) (atMs 6000)
           (run loaded stopwatchRunning) (run loaded stopwatchRunning));
    vm_compute; (reflexivity || discriminate).
Defined.

Lemma text_width_sample :
  String.length
    (timeDisplay (updateDisplay (atMs 360000999) (run loaded stopwatchRunning)))
  = 8%nat
  /\ (9 <= String.length
             (timeDisplay
                (updateDisplay (atMs 360001000) (run loaded stopwatchRunning))))%nat.
Proof.
  destruct (text_width (atMs 360000999) (run loaded stopwatchRunning)) as [S _].
  destruct (text_width (atMs 360001000) (run loaded stopwatchRunning)) as [S' _].
  split.
  - apply S; [reflexivity | vm_compute; split; first [reflexivity | discriminate]].
  - apply S'; [reflexivity | vm_compute; discriminate].
Defined.

Lemma negative_counts_show_minus_sample :
  exists rest,
    timeDisplay (updateDisplay (atMs 400) (run loaded stopwatchRunning))
    = String "-" rest.
Proof.
  destruct (negative_counts_show_minus (atMs 400) (run loaded stopwatchRunning))
    as [S _].
  apply S; vm_compute; reflexivity.
Defined.

Example clock_set_back_text :
  timeDisplay (updateDisplay (atMs 400) (run loaded stopwatchRunning))
  = "-1:-1:-1".
Proof. vm_compute. reflexivity. Qed.




Lemma fresh_start_counts_from_total_sample :
  let s := btnStart_click (mkInputs "0" "90" "0") (atMs 1000)
             (run loaded [ModeClick TIMER (atMs 0)]) in
  timeDisplay (updateDisplay (atMs 1000) s) = "01:30:00"
  /\ remainingAt (atMs 61000) s = 5340000.
Proof.
  cbv zeta.
  destruct (fresh_start_counts_from_total (mkInputs "0" "90" "0")
              (atMs 1000) (atMs 61000) (run loaded [ModeClick TIMER (atMs 0)]))
    as (_ & _ & _ & _ & _ & T & R);
    [reflexivity | reflexivity | vm_compute; discriminate | reflexivity
     | vm_compute; repeat split; discriminate
     | vm_compute; split; discriminate
     | vm_compute; split; discriminate
     | vm_compute; split; discriminate
     | vm_compute; split; discriminate |].
  split; [rewrite T | rewrite R]; vm_compute; reflexivity.
Defined.

Lemma running_counts_follow_clock_sample :
  exists a b,
    timeDisplay (updateDisplay (atMs 2000) (run loaded countingDown))
    = formatHMS a
    /\ timeDisplay (updateDisplay (atMs 3000) (run loaded countingDown))
       = formatHMS b
    /\ 0 <= b <= a.
Proof.
  destruct (running_counts_follow_clock (atMs 2000) (atMs 3000)
              (run loaded countingDown)) as [_ T];
    [vm_compute; discriminate |].
  apply T; reflexivity.
Defined.

Lemma caption_tracks_running_sample :
  btnStart (run loaded countingDown) = "Pause"
  <-> activeRunning (run loaded countingDown) = true.
Proof.
  destruct (caption_tracks_running (run loaded countingDown)) as [P _];
    [apply Reachable_loaded | discriminate | exact P].
Defined.

Lemma mode_indicator_names_mode_sample :
  modeIndicator (run loaded pausedStopwatch)
  = modeName (currentMode (run loaded pausedStopwatch)).
Proof.
  apply (mode_indicator_names_mode (run loaded pausedStopwatch)).
  apply Reachable_loaded.
Defined.

Lemma timer_fields_invariant_sample :
  0 < timerRemaining
        (step (step (step loaded (ModeClick TIMER (atMs 0)))
                    (StartClick oneSecond (atMs 30)))
              (Tick (atMs 100))).
Proof.
  destruct (timer_fields_invariant
              (step (step (step loaded (ModeClick TIMER (atMs 0)))
                          (StartClick oneSecond (atMs 30)))
                    (Tick (atMs 100)))) as (_ & _ & _ & P).
  - repeat (apply ereach_step); [apply ereach_boot | exact I | | exact I].
    vm_compute. repeat split; discriminate.
  - apply P. reflexivity.
Defined.

Lemma background_timer_completes_on_return_sample :
  let st := run loaded (countingDown ++ [ModeClick CLOCK (atMs 5950)]) in
  let st1 := run st (ticks [atMs 9000; atMs 9100]) in
  let st2 := switchMode TIMER (atMs 9200) st1 in
  timerState st1 = timerState st /\ alerts st1 = alerts st
  /\ btnStart st1 = btnStart st
  /\ timerRunning st2 = false /\ alerts st2 = S (alerts st)
  /\ btnStart st2 = "Start" /\ timeDisplay st2 = "00:00:00".
Proof.
  apply (background_timer_completes_on_return
           (run loaded (countingDown ++ [ModeClick CLOCK (atMs 5950)]))
           [atMs 9000; atMs 9100] (atMs 9200));
    vm_compute; (reflexivity || discriminate).
Defined.

Lemma classes_follow_mode_sample :
  classesMatch (pageStep shownPage (Core (ModeClick TIMER (atMs 200)))).
Proof.
  apply (classes_follow_mode shownPage (Core (ModeClick TIMER (atMs 200)))).
  right. exists TIMER, (atMs 200). reflexivity.
Defined.

Lemma switchMode_class_frame_sample :
  NoDup (classes (pageSwitchMode TIMER (atMs 200) shownPage) Controls).
Proof.
  destruct (switchMode_class_frame TIMER (atMs 200) shownPage Controls)
    as (_ & P & _).
  apply P. vm_compute. repeat constructor. intros [].
Defined.

Lemma PageReachable_shownPage : PageReachable shownPage.
Proof.
  apply page_step; [apply page_boot; discriminate |].
  split; [discriminate | intros []].
Qed.

Lemma one_hide_timeout_pending_sample :
  (List.length (timeouts shownPage) <= 1)%nat.
Proof.
  destruct (one_hide_timeout_pending shownPage) as (_ & _ & P);
    [apply PageReachable_shownPage | exact P].
Defined.

Lemma interaction_restarts_countdown_sample :
  timeouts (pageStep shownPage (Interaction 3%N 2500)) = [(3%N, 6500)].
Proof.
  destruct (interaction_restarts_countdown shownPage 3%N 2500) as (P & _).
  - apply PageReachable_shownPage.
  - split; [discriminate |]. vm_compute. intros [H | []]. discriminate H.
  - exact P.
Defined.

Lemma due_timeout_hides_unless_focused_sample :
  ClassList.contains "visible"
    (classes (pageStep shownPage (HideDue 2%N false 3%N 4100)) Controls) = false
  /\ timeouts (pageStep shownPage (HideDue 2%N false 3%N 4100)) = [].
Proof.
  destruct (due_timeout_hides_unless_focused shownPage 2%N false 3%N 4100)
    as (_ & A & _ & B).
  - apply PageReachable_shownPage.
  - split; [vm_compute; left; reflexivity |].
    split; [discriminate |]. vm_compute. intros [H | []]. discriminate H.
  - split; [exact A | exact B].
Defined.

Example shown_page_state :
  timeouts shownPage = [(2%N, 4100)]
  /\ ClassList.contains "visible" (classes shownPage Controls) = true
  /\ ClassList.contains "visible" (classes samplePage Controls) = false
  /\ classes samplePage Body = ["cursor-none"].
Proof. repeat split; vm_compute; reflexivity. Qed.

Lemma countdown_signals_once_sample :
  alerts (run (run loaded countingDown)
            (ticks [atMs 5950; atMs 6000; atMs 6100; atMs 6200])) = 1%nat.
Proof.
  destruct (countdown_signals_once [atMs 5950; atMs 6000; atMs 6100; atMs 6200]
              (run loaded countingDown)) as [A _];
    [reflexivity | reflexivity |].
  rewrite A. vm_compute. reflexivity.
Defined.

Lemma fields_without_number_count_as_zero_sample :
  btnStart_click (mkInputs "" "  " "abc") (atMs 100)
    (run loaded [ModeClick TIMER (atMs 0)])
  = with_timerRemaining 0 (run loaded [ModeClick TIMER (atMs 0)]).
Proof.
  destruct (fields_without_number_count_as_zero (mkInputs "" "  " "abc")
              (atMs 100) (run loaded [ModeClick TIMER (atMs 0)])) as [_ P].
  - intros s [<- | [<- | [<- | []]]].
    + left. reflexivity.
    + left. reflexivity.
    + right. exists "a"%char, "bc".
      split; [reflexivity |]. split; [vm_compute; lia |].
      split; [reflexivity |]. split; discriminate.
  - reflexivity.
  - reflexivity.
  - vm_compute. discriminate.
  - exact P.
Defined.

End MoreSamples.
